(** * Capture state machine of the interactive calibration tool

    Shallow embedding of [src/frameProcessor.cpp]: the per-frame detection
    adapters, the steady-hold gate of [CalibProcessor::processFrame], the
    object-point generator of [CalibProcessor::saveFrameData] and
    [CalibProcessor::resetState].

    Conventions.
    - C++ [int] values are [Z]; the statements about them carry the range in
      which the C++ arithmetic does not overflow.
    - C++ [float] and [double] values are [spec_float] with the IEEE-754
      binary32 / binary64 operations of the standard library ([SpecFloat]),
      every operation rounded to nearest-even in its own format, as an SSE
      build evaluates them.
    - [std::vector] is [list]; [push_back] appends at the end, [insert] at
      [begin()] conses, [pop_back] is [removelast].
    - An access the C++ standard leaves undefined ([v[0]] on an empty vector)
      makes the embedded function return [None]. *)

From Stdlib Require Import ZArith List Bool Lia.
From Stdlib Require Import Floats.SpecFloat.
Import ListNotations.
Local Open Scope Z_scope.


(* ------------------------------------------------------------------ *)
(** ** Machine arithmetic *)

(** binary32, the C++ [float]. *)
Definition float := spec_float.
Definition fprec : Z := 24.
Definition femax : Z := 128.
Definition fadd : float -> float -> float := SFadd fprec femax.
Definition fsub : float -> float -> float := SFsub fprec femax.
Definition fmul : float -> float -> float := SFmul fprec femax.
Definition fdiv : float -> float -> float := SFdiv fprec femax.
Definition fneg : float -> float := SFopp.
(** Conversion [int -> float] (exact up to 2^24, rounded above). *)
Definition float_of_int (z : Z) : float := binary_normalize fprec femax z 0 false.
(** A decimal literal [n/d] with the [f] suffix: the binary32 number nearest
    to the quotient of two integers that are themselves exact in binary32. *)
Definition float_lit (n d : Z) : float := fdiv (float_of_int n) (float_of_int d).

(** binary64, the C++ [double]. *)
Definition double := spec_float.
Definition dprec : Z := 53.
Definition demax : Z := 1024.
Definition dadd : double -> double -> double := SFadd dprec demax.
Definition dmul : double -> double -> double := SFmul dprec demax.
Definition ddiv : double -> double -> double := SFdiv dprec demax.
Definition dsqrt : double -> double := SFsqrt dprec demax.
Definition dlt : double -> double -> bool := SFltb.
Definition double_of_int (z : Z) : double := binary_normalize dprec demax z 0 false.
(** The promotion [(double)x] of a [float]: exact, the mantissa is only
    realigned to 53 bits. *)
Definition double_of_float (x : float) : double :=
  match x with
  | S754_finite s m e => binary_normalize dprec demax (cond_Zopp s (Zpos m)) e false
  | _ => x
  end.

(* ------------------------------------------------------------------ *)
(** ** OpenCV value types *)

Record Point2f := mkPoint2f { p2x : float; p2y : float }.
Record Point3f := mkPoint3f { p3x : float; p3y : float; p3z : float }.
Record Size := mkSize { width : Z; height : Z }.

Definition fzero : float := S754_zero false.
(** [cv::Point2f()], the value [std::vector::resize] fills with. *)
Definition Point2f_default : Point2f := mkPoint2f fzero fzero.

(** [operator-] of [cv::Point_<float>]. *)
Definition Point2f_sub (a b : Point2f) : Point2f :=
  mkPoint2f (fsub (p2x a) (p2x b)) (fsub (p2y a) (p2y b)).

(** [cv::norm(const Point_<float>&)] of the OpenCV headers:
    [std::sqrt((double)pt.x*pt.x + (double)pt.y*pt.y)]. *)
Definition norm (pt : Point2f) : double :=
  dsqrt (dadd (dmul (double_of_float (p2x pt)) (double_of_float (p2x pt)))
              (dmul (double_of_float (p2y pt)) (double_of_float (p2y pt)))).

(** [cv::Mat] as far as this file reads it: the rows of a matrix. *)
Definition Mat := list (list float).

Definition IMAGE_WIDTH : Z := 1280.
Definition IMAGE_HEIGHT : Z := 960.

(* ------------------------------------------------------------------ *)
(** ** The external detectors

    The vision library is outside the repository.  A frame is modelled by
    what each library call made on it hands back: the return flag together
    with the contents of the output array (the library fills the array it
    is given whether or not it reports success). *)

Definition Corners := list (float * float).  (* rows of a 2-column [cv::Mat] *)
Definition Ids := list Z.

Record Frame := mkFrame {
  (** [cv::findChessboardCorners(frame, size, out, flags)] *)
  findChessboardCorners : Size -> bool * list Point2f;
  (** [cv::cornerSubPix(gray, inout, ...)]: the refined corners *)
  cornerSubPix : list Point2f -> list Point2f;
  (** [currentCharucoCorners], [currentCharucoIds] after marker detection,
      refinement and interpolation (both empty when no marker was seen) *)
  interpolateCornersCharuco : Corners * Ids;
  (** [findCirclesGrid(frame, size, out, CALIB_CB_ASYMMETRIC_GRID)] *)
  findCirclesGrid : Size -> bool * list Point2f;
  (** the same with the custom blob detector, on the frame as it is *)
  findCirclesGridWhite : Size -> bool * list Point2f;
  (** the same with the custom blob detector, on [bitwise_not(frame)] *)
  findCirclesGridBlack : Size -> bool * list Point2f
}.

(* ------------------------------------------------------------------ *)
(** ** Processor state *)

Inductive TemplateType := Chessboard | chAruco | AcirclesGrid | DoubleAcirclesGrid.

(** [calibrationData], the object behind the shared pointer [mCalibdata].
    One capture processor writes it; the last three fields belong to the
    solver and the preview. *)
Record calibrationData := mkCalibrationData {
  imagePoints : list (list Point2f);
  objectPoints : list (list Point3f);
  allCharucoCorners : list Corners;
  allCharucoIds : list Ids;
  cameraMatrix : Mat;
  distCoeffs : Mat;
  totalAvgErr : double
}.

(** The members of [CalibProcessor] the source file reads and writes.  The
    class declaration is in [frameProcessor.hpp]; the two counters are kept
    as unbounded integers here. *)
Record CalibProcessor := mkCalibProcessor {
  mCalibdata : calibrationData;
  mBoardType : TemplateType;
  mBoardSize : Size;
  mTemplateLocations : list Point2f;
  mCurrentImagePoints : list Point2f;
  mCurrentCharucoCorners : Corners;
  mCurrentCharucoIds : Ids;
  mCapuredFrames : Z;
  mNeededFramesNum : Z
}.

Definition set_mCalibdata (d : calibrationData) (p : CalibProcessor) :=
  mkCalibProcessor d (mBoardType p) (mBoardSize p) (mTemplateLocations p)
    (mCurrentImagePoints p) (mCurrentCharucoCorners p) (mCurrentCharucoIds p)
    (mCapuredFrames p) (mNeededFramesNum p).
Definition set_mTemplateLocations (h : list Point2f) (p : CalibProcessor) :=
  mkCalibProcessor (mCalibdata p) (mBoardType p) (mBoardSize p) h
    (mCurrentImagePoints p) (mCurrentCharucoCorners p) (mCurrentCharucoIds p)
    (mCapuredFrames p) (mNeededFramesNum p).
Definition set_mCurrentImagePoints (c : list Point2f) (p : CalibProcessor) :=
  mkCalibProcessor (mCalibdata p) (mBoardType p) (mBoardSize p) (mTemplateLocations p)
    c (mCurrentCharucoCorners p) (mCurrentCharucoIds p)
    (mCapuredFrames p) (mNeededFramesNum p).
Definition set_mCurrentCharuco (c : Corners) (i : Ids) (p : CalibProcessor) :=
  mkCalibProcessor (mCalibdata p) (mBoardType p) (mBoardSize p) (mTemplateLocations p)
    (mCurrentImagePoints p) c i (mCapuredFrames p) (mNeededFramesNum p).
Definition set_mCapuredFrames (n : Z) (p : CalibProcessor) :=
  mkCalibProcessor (mCalibdata p) (mBoardType p) (mBoardSize p) (mTemplateLocations p)
    (mCurrentImagePoints p) (mCurrentCharucoCorners p) (mCurrentCharucoIds p)
    n (mNeededFramesNum p).

(** [CalibProcessor::CalibProcessor(data, board, boardSize)] *)
Definition CalibProcessor_new (data : calibrationData) (board : TemplateType)
    (boardSize : Size) : CalibProcessor :=
  mkCalibProcessor data board boardSize [] [] [] [] 0 1.

(** [mTemplateLocations.insert(mTemplateLocations.begin(), mCurrentImagePoints[0])] *)
Definition insertAnchor (p : CalibProcessor) : option CalibProcessor :=
  match mCurrentImagePoints p with
  | [] => None
  | a :: _ => Some (set_mTemplateLocations (a :: mTemplateLocations p) p)
  end.

(* ------------------------------------------------------------------ *)
(** ** Detection adapters *)

Definition detectAndParseChessboard (fr : Frame) (p : CalibProcessor)
    : option (bool * CalibProcessor) :=
  let (isTemplateFound, out) := findChessboardCorners fr (mBoardSize p) in
  let p := set_mCurrentImagePoints out p in
  if isTemplateFound then
    let p := set_mCurrentImagePoints (cornerSubPix fr (mCurrentImagePoints p)) p in
    match insertAnchor p with
    | Some p => Some (isTemplateFound, p)
    | None => None
    end
  else Some (isTemplateFound, p).

(** The two accumulation loops and the two divisions of
    [detectAndParseChAruco]. *)
Definition charucoCenter (c : Corners) : Point2f :=
  let centerX := fold_left (fun acc row => fadd acc (fst row)) c fzero in
  let centerY := fold_left (fun acc row => fadd acc (snd row)) c fzero in
  let n := float_of_int (Z.of_nat (length c)) in
  mkPoint2f (fdiv centerX n) (fdiv centerY n).

Definition detectAndParseChAruco (fr : Frame) (p : CalibProcessor)
    : option (bool * CalibProcessor) :=
  let (currentCharucoCorners, currentCharucoIds) := interpolateCornersCharuco fr in
  if (0 <? length currentCharucoCorners)%nat then
    let p := set_mTemplateLocations
               (charucoCenter currentCharucoCorners :: mTemplateLocations p) p in
    Some (true, set_mCurrentCharuco currentCharucoCorners currentCharucoIds p)
  else Some (false, p).

Definition detectAndParseACircles (fr : Frame) (p : CalibProcessor)
    : option (bool * CalibProcessor) :=
  let (isTemplateFound, out) := findCirclesGrid fr (mBoardSize p) in
  let p := set_mCurrentImagePoints out p in
  if isTemplateFound then
    match insertAnchor p with
    | Some p => Some (isTemplateFound, p)
    | None => None
    end
  else Some (isTemplateFound, p).

Definition detectAndParseDualACircles (fr : Frame) (p : CalibProcessor)
    : option (bool * CalibProcessor) :=
  let (isWhiteGridFound, out) := findCirclesGridWhite fr (mBoardSize p) in
  let p := set_mCurrentImagePoints out p in
  if negb isWhiteGridFound then Some (false, p)
  else
    let (isBlackGridFound, blackPointbuf) := findCirclesGridBlack fr (mBoardSize p) in
    if negb isBlackGridFound then Some (false, set_mCurrentImagePoints [] p)
    else
      let p := set_mCurrentImagePoints (mCurrentImagePoints p ++ blackPointbuf) p in
      match insertAnchor p with
      | Some p => Some (true, p)
      | None => None
      end.

(* ------------------------------------------------------------------ *)
(** ** Object points, [CalibProcessor::saveFrameData] *)

(** The values [0, 1, ..., n-1] of [for (int i = 0; i < n; ++i)]. *)
Definition range (n : Z) : list Z := map Z.of_nat (seq 0 (Z.to_nat n)).

(** [for i < height: for j < width: push_back(f j i)] *)
Definition gridLoop {A : Type} (sz : Size) (f : Z -> Z -> A) : list A :=
  flat_map (fun i => map (fun j => f j i) (range (width sz))) (range (height sz)).

Definition squareSize : float := float_lit 163 10.          (* 16.3f *)
Definition acircleGrid2Distance : float := float_of_int 295. (* 295.f *)

Definition chessboardPoint (j i : Z) : Point3f :=
  mkPoint3f (fmul (float_of_int j) squareSize) (fmul (float_of_int i) squareSize) fzero.

Definition acirclesPoint (j i : Z) : Point3f :=
  mkPoint3f (fmul (float_of_int (2 * j + Z.rem i 2)) squareSize)
            (fmul (float_of_int i) squareSize) fzero.

Definition gridCenterX (sz : Size) : float :=
  fadd (fmul (fadd (fmul (float_of_int 2) (fsub (float_of_int (width sz)) (float_of_int 1)))
                   (float_of_int 1))
             squareSize)
       (fdiv acircleGrid2Distance (float_of_int 2)).

Definition gridCenterY (sz : Size) : float :=
  fdiv (fmul (float_of_int (height sz - 1)) squareSize) (float_of_int 2).

Definition whitePoint (sz : Size) (j i : Z) : Point3f :=
  mkPoint3f
    (fneg (fsub (fadd (fadd (fmul (float_of_int (2 * j + Z.rem i 2)) squareSize)
                            acircleGrid2Distance)
                      (fmul (float_of_int (2 * (width sz - 1) + 1)) squareSize))
                (gridCenterX sz)))
    (fsub (fneg (fmul (float_of_int i) squareSize)) (gridCenterY sz))
    fzero.

Definition blackPoint (sz : Size) (j i : Z) : Point3f :=
  mkPoint3f
    (fneg (fsub (fmul (float_of_int (2 * j + Z.rem i 2)) squareSize) (gridCenterX sz)))
    (fsub (fneg (fmul (float_of_int i) squareSize)) (gridCenterY sz))
    fzero.

(** The local [objectPoints] vector at the end of each geometric case. *)
Definition generatedObjectPoints (board : TemplateType) (sz : Size) : list Point3f :=
  match board with
  | Chessboard => gridLoop sz chessboardPoint
  | chAruco => []
  | AcirclesGrid => gridLoop sz acirclesPoint
  | DoubleAcirclesGrid => gridLoop sz (whitePoint sz) ++ gridLoop sz (blackPoint sz)
  end.

Definition push_geometric (img : list Point2f) (obj : list Point3f)
    (d : calibrationData) : calibrationData :=
  mkCalibrationData (imagePoints d ++ [img]) (objectPoints d ++ [obj])
    (allCharucoCorners d) (allCharucoIds d)
    (cameraMatrix d) (distCoeffs d) (totalAvgErr d).

Definition push_charuco (c : Corners) (i : Ids) (d : calibrationData) : calibrationData :=
  mkCalibrationData (imagePoints d) (objectPoints d)
    (allCharucoCorners d ++ [c]) (allCharucoIds d ++ [i])
    (cameraMatrix d) (distCoeffs d) (totalAvgErr d).

Definition saveFrameData (p : CalibProcessor) : CalibProcessor :=
  match mBoardType p with
  | chAruco =>
      set_mCalibdata
        (push_charuco (mCurrentCharucoCorners p) (mCurrentCharucoIds p) (mCalibdata p)) p
  | board =>
      set_mCalibdata
        (push_geometric (mCurrentImagePoints p)
           (generatedObjectPoints board (mBoardSize p)) (mCalibdata p)) p
  end.

(* ------------------------------------------------------------------ *)
(** ** [CalibProcessor::processFrame] *)

Definition delayBetweenCaptures : nat := 30.

Definition maxTemplateOffset : double :=
  ddiv (dsqrt (double_of_int (IMAGE_HEIGHT * IMAGE_HEIGHT + IMAGE_WIDTH * IMAGE_WIDTH)))
       (double_of_int 20).

(** Lines 207-225: clear the point buffer, then dispatch on the board type. *)
Definition detect (fr : Frame) (p : CalibProcessor) : option (bool * CalibProcessor) :=
  let p := set_mCurrentImagePoints [] p in
  match mBoardType p with
  | Chessboard => detectAndParseChessboard fr p
  | chAruco => detectAndParseChAruco fr p
  | AcirclesGrid => detectAndParseACircles fr p
  | DoubleAcirclesGrid => detectAndParseDualACircles fr p
  end.

(** Lines 227-228. *)
Definition evict (p : CalibProcessor) : CalibProcessor :=
  if (delayBetweenCaptures <? length (mTemplateLocations p))%nat
  then set_mTemplateLocations (removelast (mTemplateLocations p)) p
  else p.

(** Line 231, the comparison of the newest with the oldest entry. *)
Definition withinOffset (h : list Point2f) : option bool :=
  match nth_error h 0, nth_error h (delayBetweenCaptures - 1) with
  | Some newest, Some oldest =>
      Some (dlt (norm (Point2f_sub newest oldest)) maxTemplateOffset)
  | _, _ => None
  end.

(** Lines 233-243 (the overlay, [imshow] and [waitKey] leave the state alone). *)
Definition capture (p : CalibProcessor) : CalibProcessor :=
  let p := saveFrameData p in
  let p := set_mCapuredFrames (mCapuredFrames p + 1) p in
  let p := set_mTemplateLocations [] p in
  set_mTemplateLocations
    (mTemplateLocations p
       ++ repeat Point2f_default (delayBetweenCaptures - length (mTemplateLocations p))) p.

Definition gate (isTemplateFound : bool) (p : CalibProcessor) : option CalibProcessor :=
  if (length (mTemplateLocations p) =? delayBetweenCaptures)%nat && isTemplateFound then
    match withinOffset (mTemplateLocations p) with
    | Some true => Some (capture p)
    | Some false => Some p
    | None => None
    end
  else Some p.

Definition processFrame (fr : Frame) (p : CalibProcessor) : option CalibProcessor :=
  match detect fr p with
  | Some (isTemplateFound, p) => gate isTemplateFound (evict p)
  | None => None
  end.

(** [CalibProcessor::isProcessed] *)
Definition isProcessed (p : CalibProcessor) : bool :=
  if mCapuredFrames p <? mNeededFramesNum p then false else true.

(** [CalibProcessor::resetState] *)
Definition resetState (p : CalibProcessor) : CalibProcessor :=
  set_mTemplateLocations [] (set_mCapuredFrames 0 p).

(** The driver: frames are fed one at a time. *)
Fixpoint runFrames (frames : list Frame) (p : CalibProcessor) : option CalibProcessor :=
  match frames with
  | [] => Some p
  | fr :: rest =>
      match processFrame fr p with
      | Some p => runFrames rest p
      | None => None
      end
  end.

(* ------------------------------------------------------------------ *)
(** ** Vocabulary of the statements *)

(** The flag the adapter of each family reports for a frame. *)
Definition templateFound (board : TemplateType) (sz : Size) (fr : Frame) : bool :=
  match board with
  | Chessboard => fst (findChessboardCorners fr sz)
  | chAruco => (0 <? length (fst (interpolateCornersCharuco fr)))%nat
  | AcirclesGrid => fst (findCirclesGrid fr sz)
  | DoubleAcirclesGrid =>
      fst (findCirclesGridWhite fr sz) && fst (findCirclesGridBlack fr sz)
  end.

(** The point buffer a successful detection leaves behind. *)
Definition detectedPoints (board : TemplateType) (sz : Size) (fr : Frame) : list Point2f :=
  match board with
  | Chessboard => cornerSubPix fr (snd (findChessboardCorners fr sz))
  | chAruco => []
  | AcirclesGrid => snd (findCirclesGrid fr sz)
  | DoubleAcirclesGrid =>
      snd (findCirclesGridWhite fr sz) ++ snd (findCirclesGridBlack fr sz)
  end.

(** The anchor a successful detection puts in front of the history. *)
Definition anchorOf (board : TemplateType) (sz : Size) (fr : Frame) : option Point2f :=
  match board with
  | chAruco => Some (charucoCenter (fst (interpolateCornersCharuco fr)))
  | _ => hd_error (detectedPoints board sz fr)
  end.

(** A frame on which the adapter never indexes an empty vector: a detector
    that reports success has produced at least one point. *)
Definition wellFormedFrame (board : TemplateType) (sz : Size) (fr : Frame) : bool :=
  implb (templateFound board sz fr)
        (match anchorOf board sz fr with Some _ => true | None => false end).

(** The three conditions of the capture trigger, on the history [h] as it is
    after insertion and eviction. *)
Definition steadyHold (isTemplateFound : bool) (h : list Point2f) : Prop :=
  length h = 30%nat /\ isTemplateFound = true /\
  exists newest oldest,
    nth_error h 0 = Some newest /\ nth_error h 29 = Some oldest /\
    dlt (norm (Point2f_sub newest oldest)) maxTemplateOffset = true.

Definition sampleCount (d : calibrationData) : nat :=
  (length (imagePoints d) + length (allCharucoCorners d))%nat.

(** A capture happened between [p] and [p']: one more sample in the data
    set, one more captured frame. *)
Definition captured (p p' : CalibProcessor) : Prop :=
  mCapuredFrames p' = mCapuredFrames p + 1 /\
  sampleCount (mCalibdata p') = S (sampleCount (mCalibdata p)).

Definition notCaptured (p p' : CalibProcessor) : Prop :=
  mCapuredFrames p' = mCapuredFrames p /\ mCalibdata p' = mCalibdata p.

(** Number of frames of a sequence on which the pattern is detected, and the
    longest stretch of consecutive detections. *)
Definition detections (board : TemplateType) (sz : Size) (frames : list Frame) : nat :=
  length (filter (templateFound board sz) frames).

Fixpoint longestRunFrom (cur best : nat) (l : list bool) : nat :=
  match l with
  | [] => Nat.max cur best
  | true :: r => longestRunFrom (S cur) best r
  | false :: r => longestRunFrom 0 (Nat.max cur best) r
  end.

Definition longestDetectionRun (board : TemplateType) (sz : Size)
    (frames : list Frame) : nat :=
  longestRunFrom 0 0 (map (templateFound board sz) frames).

(** Number of object points per sample. *)
Definition objectPointCount (board : TemplateType) (sz : Size) : Z :=
  match board with
  | Chessboard | AcirclesGrid => width sz * height sz
  | chAruco => 0
  | DoubleAcirclesGrid => 2 * width sz * height sz
  end.

(** What a run has added to the data set of [p] when it reaches [p']. *)
Definition datasetGrowth (p p' : CalibProcessor)
    (newImg : list (list Point2f)) (newObj : list (list Point3f))
    (newCorners : list Corners) (newIds : list Ids) : Prop :=
  imagePoints (mCalibdata p') = imagePoints (mCalibdata p) ++ newImg /\
  objectPoints (mCalibdata p') = objectPoints (mCalibdata p) ++ newObj /\
  allCharucoCorners (mCalibdata p') = allCharucoCorners (mCalibdata p) ++ newCorners /\
  allCharucoIds (mCalibdata p') = allCharucoIds (mCalibdata p) ++ newIds.

(* ------------------------------------------------------------------ *)
(** ** Sample data *)

Definition pixel (x y : Z) : Point2f := mkPoint2f (float_of_int x) (float_of_int y).

(** A frame on which every detector reports [flag] and returns [pts]. *)
Definition uniformFrame (flag : bool) (pts : list Point2f) : Frame :=
  mkFrame (fun _ => (flag, pts)) (fun c => c)
          (if flag then (map (fun q => (p2x q, p2y q)) pts, map (fun _ => 0) pts)
           else ([], []))
          (fun _ => (flag, pts)) (fun _ => (flag, pts)) (fun _ => (flag, pts)).

(** A frame on which only the inverted-image detection succeeds, the plain
    one having left one stray centre in the output array. *)
Definition onlyBlackFrame : Frame :=
  mkFrame (fun _ => (false, [])) (fun c => c) ([], [])
          (fun _ => (false, []))
          (fun _ => (false, [pixel 7 7]))
          (fun _ => (true, [pixel 1 1; pixel 2 2])).

Definition emptyData : calibrationData := mkCalibrationData [] [] [] [] [] [] fzero.

Definition seenAt (x y : Z) : Frame := uniformFrame true [pixel x y; pixel (x + 50) y].
Definition missed : Frame := uniformFrame false [].

Definition board6x9 : Size := mkSize 6 9.

Definition freshChessboard : CalibProcessor := CalibProcessor_new emptyData Chessboard board6x9.

(** A chessboard processor whose history already holds [h]. *)
Definition chessboardHolding (h : list Point2f) : CalibProcessor :=
  mkCalibProcessor emptyData Chessboard board6x9 h [] [] [] 0 1.

(** Twenty-nine detections, one dropped frame, one more detection. *)
Definition interruptedHold : list Frame :=
  repeat (seenAt 500 500) 29 ++ [missed; seenAt 500 500].

(** A full history whose oldest entry is recognisable. *)
Definition fullHistory : list Point2f := repeat (pixel 10 10) 29 ++ [pixel 99 99].

(** The range of board sizes in which the [int] expressions of
    [saveFrameData] ([2*j + i % 2], [2*(width - 1) + 1], [height - 1]) stay
    inside a 32-bit [int]. *)
Definition boardInRange (sz : Size) : Prop :=
  0 <= width sz /\ 0 <= height sz /\
  2 * width sz <= 2147483648 /\ height sz <= 2147483647.

(* ------------------------------------------------------------------ *)
(** ** Further vocabulary *)

(** A coordinate that is a number: neither NaN nor an infinity. *)
Definition finiteCoord (x : float) : bool :=
  match x with
  | S754_finite _ _ _ | S754_zero _ => true
  | _ => false
  end.
Definition finitePoint (a : Point2f) : bool := finiteCoord (p2x a) && finiteCoord (p2y a).

(** [(double)x * x], one summand of [cv::norm]. *)
Definition squared (x : float) : double := dmul (double_of_float x) (double_of_float x).


(** The anchors a sequence of frames puts into the history, in frame
    order (oldest first). *)
Fixpoint anchorsOf (board : TemplateType) (sz : Size) (frames : list Frame)
    : list Point2f :=
  match frames with
  | [] => []
  | fr :: rest =>
      (if templateFound board sz fr
       then match anchorOf board sz fr with Some a => [a] | None => [] end
       else []) ++ anchorsOf board sz rest
  end.

(** The fields of the data set that the solver owns. *)
Definition solverFields (d : calibrationData) : Mat * Mat * double :=
  (cameraMatrix d, distCoeffs d, totalAvgErr d).

(** The test of [ShowProcessor::processFrame] that selects the undistorted
    view: [cameraMatrix.size[0] && distCoeffs.size[0]]. *)
Definition ShowProcessor_undistorts (d : calibrationData) : bool :=
  negb (length (cameraMatrix d) =? 0)%nat && negb (length (distCoeffs d) =? 0)%nat.

(** A frame on which the white grid is found and the black one is not. *)
Definition seenAtWhiteOnly : Frame :=
  mkFrame (fun _ => (false, [])) (fun c => c) ([], [])
          (fun _ => (false, []))
          (fun _ => (true, [pixel 5 5; pixel 6 6]))
          (fun _ => (false, [])).

(* ------------------------------------------------------------------ *)
(** ** The capture condition, stated apart from the code *)

(** The double 80.0, that is 5629499534213120 * 2^-46. *)
Definition eighty : spec_float := S754_finite false 5629499534213120 (-46).

(** A binary32 number written as the binary64 number of the same value. *)
Definition widen (x : spec_float) : spec_float :=
  match x with
  | S754_finite s m e => binary_normalize 53 1024 (cond_Zopp s (Zpos m)) e false
  | other => other
  end.

(** The distance between two stored anchors in the arithmetic of the
    program: the coordinate differences [newest - oldest] rounded to
    binary32, then the square root of the sum of their squares in
    binary64. *)
Definition roundedDistance (newest oldest : Point2f) : spec_float :=
  let dx := SFsub 24 128 (p2x newest) (p2x oldest) in
  let dy := SFsub 24 128 (p2y newest) (p2y oldest) in
  SFsqrt 53 1024
    (SFadd 53 1024 (SFmul 53 1024 (widen dx) (widen dx))
                   (SFmul 53 1024 (widen dy) (widen dy))).

(** The history once this frame's anchor has been put in front of [h]
    (when the frame was detected) and the entry beyond the thirtieth, if
    any, has been dropped from the back. *)
Definition historyAfterUpdate (isTemplateFound : bool) (anchor : option Point2f)
    (h : list Point2f) : list Point2f :=
  let inserted :=
    match isTemplateFound, anchor with
    | true, Some a => a :: h
    | _, _ => h
    end in
  if (30 <? length inserted)%nat then removelast inserted else inserted.

(** The three conditions of the trigger on the updated history [h]:
    exactly 30 entries, a detection on this frame, and the rounded
    distance between the newest and the oldest entry strictly below 80. *)
Definition heldSteady (isTemplateFound : bool) (h : list Point2f) : Prop :=
  length h = 30%nat /\ isTemplateFound = true /\
  exists newest oldest,
    nth_error h 0 = Some newest /\ nth_error h 29 = Some oldest /\
    SFltb (roundedDistance newest oldest) eighty = true.

(** Exact arithmetic on float values: the pair [(m, e)] stands for the
    number [m * 2^e]. *)
Definition Dyadic := (Z * Z)%type.

Definition dyadic_of_float (x : float) : option Dyadic :=
  match x with
  | S754_zero _ => Some (0, 0)
  | S754_finite s m e => Some (cond_Zopp s (Zpos m), e)
  | _ => None
  end.

(** The mantissa of [a] at the exponent [e], for [e <= snd a]. *)
Definition dy_mantissa_at (a : Dyadic) (e : Z) : Z := fst a * 2 ^ (snd a - e).

Definition dy_sub (a b : Dyadic) : Dyadic :=
  let e := Z.min (snd a) (snd b) in (dy_mantissa_at a e - dy_mantissa_at b e, e).
Definition dy_add (a b : Dyadic) : Dyadic :=
  let e := Z.min (snd a) (snd b) in (dy_mantissa_at a e + dy_mantissa_at b e, e).
Definition dy_square (a : Dyadic) : Dyadic := (fst a * fst a, 2 * snd a).

(** [a < n] for an integer [n]. *)
Definition dy_below (a : Dyadic) (n : Z) : Prop :=
  let e := Z.min (snd a) 0 in dy_mantissa_at a e < n * 2 ^ (0 - e).

(** The exact squared Euclidean distance of two points with finite
    coordinates. *)
Definition exactSquaredDistance (a b : Point2f) : option Dyadic :=
  match dyadic_of_float (p2x a), dyadic_of_float (p2x b),
        dyadic_of_float (p2y a), dyadic_of_float (p2y b) with
  | Some ax, Some bx, Some ay, Some by_ =>
      Some (dy_add (dy_square (dy_sub ax bx)) (dy_square (dy_sub ay by_)))
  | _, _, _, _ => None
  end.

(** The Euclidean distance of [a] and [b] is below 80, the value of
    [sqrt(1280^2 + 960^2)/20]: their squared distance is below 6400. *)
Definition euclideanBelow80 (a b : Point2f) : Prop :=
  exists d, exactSquaredDistance a b = Some d /\ dy_below d 6400.

(** Two pairs of anchors at the threshold.  The first pair is less than 80
    apart (80 - 2^-20) but the binary32 difference rounds to 80; the second
    is more than 80 apart but its first difference, 64 + 7 * 2^-21, rounds
    down to 64. *)
Definition nearNewest1 : Point2f := mkPoint2f (float_of_int 80) fzero.
Definition nearOldest1 : Point2f := mkPoint2f (float_lit 1 1048576) fzero.
Definition nearNewest2 : Point2f :=
  mkPoint2f (float_of_int 64) (float_lit 12582911 262144).
Definition nearOldest2 : Point2f := mkPoint2f (float_lit (-7) 2097152) fzero.

(** Case analysis on whatever detector call the goal mentions. *)
Ltac break_detector :=
  match goal with
  | |- context [findChessboardCorners ?fr ?sz] =>
      destruct (findChessboardCorners fr sz) as [[|] ?]
  | |- context [findCirclesGrid ?fr ?sz] =>
      destruct (findCirclesGrid fr sz) as [[|] ?]
  | |- context [findCirclesGridWhite ?fr ?sz] =>
      destruct (findCirclesGridWhite fr sz) as [[|] ?]
  | |- context [findCirclesGridBlack ?fr ?sz] =>
      destruct (findCirclesGridBlack fr sz) as [[|] ?]
  | |- context [interpolateCornersCharuco ?fr] =>
      destruct (interpolateCornersCharuco fr) as [[|? ?] ?]
  end.

(* ================================================================== *)
(** * Properties *)

(* ------------------------------------------------------------------ *)
(** ** Arithmetic facts *)

(** The movement threshold is exactly 80: [sqrt(960^2 + 1280^2) = 1600]. *)
Lemma maxTemplateOffset_is_80 : maxTemplateOffset = double_of_int 80.
Proof. vm_compute. reflexivity. Qed.

Lemma squareSize_bits : squareSize = S754_finite false 8545894 (-19).
Proof. vm_compute. reflexivity. Qed.

Example norm_3_4 : norm (pixel 3 4) = double_of_int 5.
Proof. vm_compute. reflexivity. Qed.

(* ------------------------------------------------------------------ *)
(** ** The detection step *)

(** What the detection step can change: the flag is the adapter's, a
    success puts the anchor in front of the history, and the counters, the
    board and the data set are never touched. *)
Lemma detect_inv fr p found q :
  detect fr p = Some (found, q) ->
  found = templateFound (mBoardType p) (mBoardSize p) fr /\
  mCalibdata q = mCalibdata p /\ mBoardType q = mBoardType p /\
  mBoardSize q = mBoardSize p /\ mCapuredFrames q = mCapuredFrames p /\
  mNeededFramesNum q = mNeededFramesNum p /\
  mTemplateLocations q =
    (if found
     then match anchorOf (mBoardType p) (mBoardSize p) fr with
          | Some a => a :: mTemplateLocations p
          | None => mTemplateLocations p
          end
     else mTemplateLocations p) /\
  (found = true -> anchorOf (mBoardType p) (mBoardSize p) fr <> None).
Proof.
  destruct p as [d board sz h cur cc ci n m]; destruct board;
    unfold detect, detectAndParseChessboard, detectAndParseChAruco,
      detectAndParseACircles, detectAndParseDualACircles, insertAnchor,
      templateFound, anchorOf, detectedPoints; cbn;
    repeat (break_detector; cbn);
    repeat match goal with
           | |- context [match ?l with nil => _ | cons _ _ => _ end] => destruct l; cbn
           end;
    intros E; try discriminate; injection E as <- <-; cbn;
    repeat split; try reflexivity; try discriminate.
Qed.

(** On a well-formed frame the detection step has defined behaviour. *)
Lemma detect_total fr p :
  wellFormedFrame (mBoardType p) (mBoardSize p) fr = true ->
  exists q, detect fr p = Some (templateFound (mBoardType p) (mBoardSize p) fr, q).
Proof.
  destruct p as [d board sz h cur cc ci n m]; destruct board;
    unfold wellFormedFrame, detect, detectAndParseChessboard, detectAndParseChAruco,
      detectAndParseACircles, detectAndParseDualACircles, insertAnchor,
      templateFound, anchorOf, detectedPoints; cbn;
    repeat (break_detector; cbn);
    repeat match goal with
           | |- context [match ?l with nil => _ | cons _ _ => _ end] => destruct l; cbn
           end;
    intros E; try discriminate; eexists; reflexivity.
Qed.

(* ------------------------------------------------------------------ *)
(** ** Eviction, gate and capture *)

Lemma evict_fields q :
  mCalibdata (evict q) = mCalibdata q /\ mBoardType (evict q) = mBoardType q /\
  mBoardSize (evict q) = mBoardSize q /\ mCapuredFrames (evict q) = mCapuredFrames q /\
  mNeededFramesNum (evict q) = mNeededFramesNum q /\
  mCurrentImagePoints (evict q) = mCurrentImagePoints q /\
  mCurrentCharucoCorners (evict q) = mCurrentCharucoCorners q /\
  mCurrentCharucoIds (evict q) = mCurrentCharucoIds q.
Proof.
  unfold evict. destruct (_ <? _)%nat; cbn; repeat split; reflexivity.
Qed.

(** Eviction keeps the first thirty entries when there are thirty-one, and
    everything when there are at most thirty. *)
Lemma evict_history q :
  (length (mTemplateLocations q) <= 31)%nat ->
  mTemplateLocations (evict q) = firstn 30 (mTemplateLocations q).
Proof.
  intros Hlen. unfold evict, delayBetweenCaptures.
  destruct (Nat.ltb_spec 30 (length (mTemplateLocations q))) as [Hgt | Hle].
  - cbn [mTemplateLocations set_mTemplateLocations]. rewrite removelast_firstn_len.
    replace (pred (length (mTemplateLocations q))) with 30%nat by lia. reflexivity.
  - symmetry. apply firstn_all2. exact Hle.
Qed.

Lemma evict_small q :
  (length (mTemplateLocations q) <= 30)%nat -> evict q = q.
Proof.
  intros Hle. unfold evict, delayBetweenCaptures.
  destruct (Nat.ltb_spec 30 (length (mTemplateLocations q))); [lia | reflexivity].
Qed.

Lemma withinOffset_defined h :
  length h = 30%nat -> exists b, withinOffset h = Some b.
Proof.
  intros Hlen. unfold withinOffset, delayBetweenCaptures.
  destruct (nth_error h 0) as [a|] eqn:E0.
  - destruct (nth_error h (30 - 1)) as [b|] eqn:E29.
    + eexists; reflexivity.
    + apply nth_error_None in E29. cbn in E29. lia.
  - apply nth_error_None in E0. lia.
Qed.

Lemma steadyHold_iff found h :
  steadyHold found h <->
  (length h =? 30)%nat && found = true /\ withinOffset h = Some true.
Proof.
  unfold steadyHold, withinOffset, delayBetweenCaptures. cbn [Nat.sub].
  rewrite andb_true_iff, Nat.eqb_eq. split.
  - intros (Hlen & Hf & a & b & Ha & Hb & Hlt). rewrite Ha, Hb, Hlt. auto.
  - intros ((Hlen & Hf) & Hw).
    destruct (nth_error h 0) as [a|]; [|discriminate].
    destruct (nth_error h 29) as [b|]; [|discriminate].
    injection Hw as Hw. repeat split; trivial. exists a, b. auto.
Qed.

(** The gate always returns, and captures exactly on a steady hold. *)
Lemma gate_spec found p :
  (steadyHold found (mTemplateLocations p) /\ gate found p = Some (capture p)) \/
  (~ steadyHold found (mTemplateLocations p) /\ gate found p = Some p).
Proof.
  rewrite steadyHold_iff. unfold gate.
  destruct ((length (mTemplateLocations p) =? delayBetweenCaptures)%nat && found) eqn:G.
  - apply andb_true_iff in G as (Hlen & Hf). apply Nat.eqb_eq in Hlen.
    destruct (withinOffset_defined _ Hlen) as ([|] & Hw); rewrite Hw.
    + left. unfold delayBetweenCaptures in *. rewrite Hlen, Hf. auto.
    + right. split; [intros (_ & Hc); discriminate | reflexivity].
  - right. split; [| reflexivity]. unfold delayBetweenCaptures in G.
    rewrite G. intros (Hc & _); discriminate.
Qed.

Lemma saveFrameData_fields p :
  mBoardType (saveFrameData p) = mBoardType p /\
  mBoardSize (saveFrameData p) = mBoardSize p /\
  mTemplateLocations (saveFrameData p) = mTemplateLocations p /\
  mCapuredFrames (saveFrameData p) = mCapuredFrames p /\
  mNeededFramesNum (saveFrameData p) = mNeededFramesNum p /\
  mCurrentImagePoints (saveFrameData p) = mCurrentImagePoints p /\
  mCurrentCharucoCorners (saveFrameData p) = mCurrentCharucoCorners p /\
  mCurrentCharucoIds (saveFrameData p) = mCurrentCharucoIds p.
Proof.
  destruct p as [d [] sz h cur cc ci n m]; cbn; repeat split; reflexivity.
Qed.

Lemma saveFrameData_sampleCount p :
  sampleCount (mCalibdata (saveFrameData p)) = S (sampleCount (mCalibdata p)).
Proof.
  unfold sampleCount.
  destruct p as [d [] sz h cur cc ci n m]; cbn; rewrite !length_app; cbn; lia.
Qed.

Lemma capture_fields p :
  mCalibdata (capture p) = mCalibdata (saveFrameData p) /\
  mBoardType (capture p) = mBoardType p /\ mBoardSize (capture p) = mBoardSize p /\
  mCapuredFrames (capture p) = mCapuredFrames p + 1 /\
  mNeededFramesNum (capture p) = mNeededFramesNum p /\
  mTemplateLocations (capture p) = repeat Point2f_default 30.
Proof.
  unfold capture. cbn.
  destruct (saveFrameData_fields p) as (-> & -> & _ & -> & -> & _).
  repeat split; reflexivity.
Qed.

Lemma captured_capture p q :
  mCapuredFrames q = mCapuredFrames p -> mCalibdata q = mCalibdata p ->
  captured p (capture q).
Proof.
  intros Hn Hd. unfold captured.
  destruct (capture_fields q) as (-> & _ & _ & -> & _).
  rewrite saveFrameData_sampleCount, Hn, Hd. split; reflexivity.
Qed.

Lemma captured_notCaptured p p' : captured p p' -> notCaptured p p' -> False.
Proof. unfold captured, notCaptured. intros (H1 & _) (H2 & _). lia. Qed.

(* ------------------------------------------------------------------ *)
(** ** One call of [processFrame] *)

(** Every call on a well-formed frame returns; the new state is either the
    evicted state or the capture made from it. *)
Lemma processFrame_cases fr p :
  wellFormedFrame (mBoardType p) (mBoardSize p) fr = true ->
  exists q,
    detect fr p = Some (templateFound (mBoardType p) (mBoardSize p) fr, q) /\
    ((steadyHold (templateFound (mBoardType p) (mBoardSize p) fr)
        (mTemplateLocations (evict q)) /\
      processFrame fr p = Some (capture (evict q))) \/
     (~ steadyHold (templateFound (mBoardType p) (mBoardSize p) fr)
        (mTemplateLocations (evict q)) /\
      processFrame fr p = Some (evict q))).
Proof.
  intros Hwf. destruct (detect_total fr p Hwf) as (q & Hq).
  exists q. split; [exact Hq |]. unfold processFrame. rewrite Hq.
  apply gate_spec.
Qed.

Lemma notCaptured_evict fr p found q :
  detect fr p = Some (found, q) -> notCaptured p (evict q).
Proof.
  intros Hq. destruct (detect_inv _ _ _ _ Hq) as (_ & Hd & _ & _ & Hn & _).
  destruct (evict_fields q) as (Ed & _ & _ & En & _).
  unfold notCaptured. rewrite Ed, En. auto.
Qed.

Lemma captured_capture_evict fr p found q :
  detect fr p = Some (found, q) -> captured p (capture (evict q)).
Proof.
  intros Hq. destruct (detect_inv _ _ _ _ Hq) as (_ & Hd & _ & _ & Hn & _).
  destruct (evict_fields q) as (Ed & _ & _ & En & _).
  apply captured_capture; congruence.
Qed.

(* ------------------------------------------------------------------ *)
(** ** The trigger, checked against its statement *)

Lemma maxTemplateOffset_eighty : maxTemplateOffset = eighty.
Proof. vm_compute. reflexivity. Qed.

Lemma norm_roundedDistance newest oldest :
  norm (Point2f_sub newest oldest) = roundedDistance newest oldest.
Proof. reflexivity. Qed.

Lemma heldSteady_steadyHold found h : heldSteady found h <-> steadyHold found h.
Proof.
  unfold heldSteady, steadyHold, dlt.
  split; intros (Hlen & Hf & a & b & Ha & Hb & Hlt);
    (split; [exact Hlen |]); (split; [exact Hf |]); exists a, b;
    (split; [exact Ha |]); (split; [exact Hb |]).
  - rewrite norm_roundedDistance, maxTemplateOffset_eighty. exact Hlt.
  - rewrite <- norm_roundedDistance, <- maxTemplateOffset_eighty. exact Hlt.
Qed.

(** The history the gate looks at is the updated history. *)
Lemma detect_evict_history fr p found q :
  detect fr p = Some (found, q) ->
  mTemplateLocations (evict q) =
    historyAfterUpdate (templateFound (mBoardType p) (mBoardSize p) fr)
      (anchorOf (mBoardType p) (mBoardSize p) fr) (mTemplateLocations p).
Proof.
  intros Hq. destruct (detect_inv _ _ _ _ Hq) as (Hf & _ & _ & _ & _ & _ & Hh & _).
  subst found. unfold historyAfterUpdate, evict, delayBetweenCaptures.
  assert (E : mTemplateLocations q =
              match templateFound (mBoardType p) (mBoardSize p) fr,
                    anchorOf (mBoardType p) (mBoardSize p) fr with
              | true, Some a => a :: mTemplateLocations p
              | _, _ => mTemplateLocations p
              end).
  { rewrite Hh. destruct (templateFound _ _ fr); [| reflexivity].
    destruct (anchorOf _ _ fr); reflexivity. }
  rewrite <- E. destruct (30 <? length (mTemplateLocations q))%nat; reflexivity.
Qed.

(** C1, as the code has it. On every call of [processFrame] on a frame
    whose detection is well defined the call returns, and a capture (one
    more sample in the data set and one more captured frame) happens
    exactly when, after this frame's update, the history holds exactly 30
    entries, the frame's detection succeeded, and the distance between the
    newest and the oldest entry, computed as the program computes it
    (differences newest minus oldest rounded to binary32, norm in
    binary64), is strictly below 80; otherwise counter and data set are
    unchanged. *)
Theorem processFrame_captures_iff_held_steady fr p :
  wellFormedFrame (mBoardType p) (mBoardSize p) fr = true ->
  exists p',
    processFrame fr p = Some p' /\
    (captured p p' <->
     heldSteady (templateFound (mBoardType p) (mBoardSize p) fr)
       (historyAfterUpdate (templateFound (mBoardType p) (mBoardSize p) fr)
          (anchorOf (mBoardType p) (mBoardSize p) fr) (mTemplateLocations p))) /\
    (~ heldSteady (templateFound (mBoardType p) (mBoardSize p) fr)
         (historyAfterUpdate (templateFound (mBoardType p) (mBoardSize p) fr)
            (anchorOf (mBoardType p) (mBoardSize p) fr) (mTemplateLocations p)) ->
     notCaptured p p').
Proof.
  intros Hwf.
  destruct (processFrame_cases fr p Hwf) as (q & Hq & Hcases).
  rewrite <- (detect_evict_history _ _ _ _ Hq).
  destruct Hcases as [(Hs & Hp) | (Hs & Hp)].
  - exists (capture (evict q)). split; [exact Hp |]. split; [split |].
    + intros _. apply heldSteady_steadyHold. exact Hs.
    + intros _. eapply captured_capture_evict; eauto.
    + intros Hn. exfalso. apply Hn, heldSteady_steadyHold. exact Hs.
  - exists (evict q). split; [exact Hp |]. split; [split |].
    + intros Hc. exfalso. eapply captured_notCaptured; [exact Hc |].
      eapply notCaptured_evict; eauto.
    + intros Hh. exfalso. apply Hs, heldSteady_steadyHold. exact Hh.
    + intros _. eapply notCaptured_evict; eauto.
Qed.

Lemma processFrame_captures_iff_held_steady_witness :
  wellFormedFrame Chessboard board6x9 (seenAt 10 10) = true /\
  exists p',
    processFrame (seenAt 10 10) (chessboardHolding (repeat (pixel 10 10) 29))
      = Some p' /\
    captured (chessboardHolding (repeat (pixel 10 10) 29)) p'.
Proof.
  split; [reflexivity |].
  destruct (processFrame_captures_iff_held_steady (seenAt 10 10)
              (chessboardHolding (repeat (pixel 10 10) 29)) eq_refl)
    as (p' & Hp & Hiff & _).
  exists p'. split; [exact Hp |]. apply Hiff.
  split; [reflexivity |]. split; [reflexivity |].
  exists (pixel 10 10), (pixel 10 10).
  split; [reflexivity |]. split; [reflexivity |]. vm_compute. reflexivity.
Defined.

(** C1 as stated fails at the threshold, in both directions.  With the
    history updated to 30 entries and the frame detected: anchors whose
    exact Euclidean distance is below 80 (80 - 2^-20) do not capture,
    because the binary32 difference rounds up to 80; and anchors whose
    exact distance is above 80 capture, because the difference
    64 + 7 * 2^-21 rounds down to 64. *)
Lemma rounding_decides_at_the_threshold :
  (templateFound Chessboard board6x9 (uniformFrame true [nearNewest1]) = true /\
   historyAfterUpdate true (Some nearNewest1) (repeat nearOldest1 29)
     = nearNewest1 :: repeat nearOldest1 29 /\
   length (nearNewest1 :: repeat nearOldest1 29) = 30%nat /\
   nth_error (nearNewest1 :: repeat nearOldest1 29) 29 = Some nearOldest1 /\
   euclideanBelow80 nearNewest1 nearOldest1 /\
   exists p',
     processFrame (uniformFrame true [nearNewest1])
       (chessboardHolding (repeat nearOldest1 29)) = Some p' /\
     mCapuredFrames p' = 0 /\ mCalibdata p' = emptyData) /\
  (templateFound Chessboard board6x9 (uniformFrame true [nearNewest2]) = true /\
   historyAfterUpdate true (Some nearNewest2) (repeat nearOldest2 29)
     = nearNewest2 :: repeat nearOldest2 29 /\
   nth_error (nearNewest2 :: repeat nearOldest2 29) 29 = Some nearOldest2 /\
   ~ euclideanBelow80 nearNewest2 nearOldest2 /\
   exists p',
     processFrame (uniformFrame true [nearNewest2])
       (chessboardHolding (repeat nearOldest2 29)) = Some p' /\
     mCapuredFrames p' = 1 /\ length (imagePoints (mCalibdata p')) = 1%nat).
Proof.
  split.
  - split; [reflexivity |]. split; [reflexivity |]. split; [reflexivity |].
    split; [reflexivity |]. split.
    + eexists. split; [vm_compute; reflexivity |]. vm_compute. reflexivity.
    + eexists. split; [vm_compute; reflexivity |]. split; reflexivity.
  - split; [reflexivity |]. split; [reflexivity |]. split; [reflexivity |]. split.
    + intros (d & Hd & Hlt). vm_compute in Hd. injection Hd as <-.
      vm_compute in Hlt. discriminate Hlt.
    + eexists. split; [vm_compute; reflexivity |]. split; reflexivity.
Qed.

(** After a capture the history is not empty: [clear()] is followed by
    [resize(30)], which refills it with thirty default points. *)
Lemma processFrame_history_after_capture fr p p' :
  processFrame fr p = Some p' -> captured p p' ->
  mTemplateLocations p' = repeat Point2f_default 30.
Proof.
  unfold processFrame. destruct (detect fr p) as [[found q]|] eqn:Hq; [|discriminate].
  intros Hg Hc. destruct (gate_spec found (evict q)) as [(_ & E) | (_ & E)];
    rewrite E in Hg; injection Hg as <-.
  - apply capture_fields.
  - exfalso. eapply captured_notCaptured; [exact Hc |].
    eapply notCaptured_evict; eauto.
Qed.

(** C2 (the code departs from the claim). The thirtieth detection of a
    board held at pixel (10,10) captures and leaves the history with thirty
    entries equal to (0,0), not empty; the very next detection of the same
    hold, whose anchor is within 80 pixels of (0,0), captures again. *)
Theorem capture_refills_history_and_refires :
  exists p1 p2,
    processFrame (seenAt 10 10) (chessboardHolding (repeat (pixel 10 10) 29)) = Some p1 /\
    mCapuredFrames p1 = 1 /\
    mTemplateLocations p1 = repeat Point2f_default 30 /\
    mTemplateLocations p1 <> [] /\
    processFrame (seenAt 10 10) p1 = Some p2 /\
    mCapuredFrames p2 = 2 /\
    length (imagePoints (mCalibdata p2)) = 2%nat.
Proof.
  eexists; eexists.
  split; [vm_compute; reflexivity |].
  split; [reflexivity |].
  split; [reflexivity |].
  split; [discriminate |].
  split; [vm_compute; reflexivity |].
  split; reflexivity.
Qed.

(** C4, as the code has it. A frame without detection inserts nothing, and
    a history of at most 30 entries (what every call leaves behind) is not
    evicted from: the call returns with the history, the counter and the
    data set unchanged. *)
Theorem dropped_frame_leaves_history fr p :
  templateFound (mBoardType p) (mBoardSize p) fr = false ->
  (length (mTemplateLocations p) <= 30)%nat ->
  exists p',
    processFrame fr p = Some p' /\
    mTemplateLocations p' = mTemplateLocations p /\
    notCaptured p p'.
Proof.
  intros Hnf Hlen.
  assert (Hwf : wellFormedFrame (mBoardType p) (mBoardSize p) fr = true)
    by (unfold wellFormedFrame; rewrite Hnf; reflexivity).
  destruct (processFrame_cases fr p Hwf) as (q & Hq & Hcases).
  rewrite Hnf in *.
  destruct (detect_inv _ _ _ _ Hq) as (_ & _ & _ & _ & _ & _ & Hh & _).
  assert (Hev : evict q = q) by (apply evict_small; rewrite Hh; exact Hlen).
  destruct Hcases as [((_ & Hc & _) & _) | (_ & Hp)]; [discriminate |].
  exists (evict q). split; [exact Hp |]. split.
  - rewrite Hev. exact Hh.
  - eapply notCaptured_evict; eauto.
Qed.

Lemma dropped_frame_leaves_history_witness :
  templateFound Chessboard board6x9 missed = false /\
  (length fullHistory <= 30)%nat /\
  exists p',
    processFrame missed (chessboardHolding fullHistory) = Some p' /\
    mTemplateLocations p' = mTemplateLocations (chessboardHolding fullHistory) /\
    notCaptured (chessboardHolding fullHistory) p'.
Proof.
  split; [reflexivity |]. split; [vm_compute; lia |].
  apply (dropped_frame_leaves_history missed (chessboardHolding fullHistory)).
  - reflexivity.
  - vm_compute; lia.
Defined.

(** C4 as stated fails: with the history at its capacity of 30 and no
    detection, the oldest entry, pixel (99,99), is still the last one after
    the call. *)
Lemma dropped_frame_does_not_evict :
  length (mTemplateLocations (chessboardHolding fullHistory)) = 30%nat /\
  templateFound Chessboard board6x9 missed = false /\
  exists p',
    processFrame missed (chessboardHolding fullHistory) = Some p' /\
    length (mTemplateLocations p') = 30%nat /\
    nth_error (mTemplateLocations p') 29 = Some (pixel 99 99) /\
    mTemplateLocations p' <> removelast fullHistory.
Proof.
  split; [reflexivity |]. split; [reflexivity |].
  eexists. split; [vm_compute; reflexivity |].
  split; [reflexivity |]. split; [reflexivity |].
  vm_compute. discriminate.
Qed.

(** C8. [resetState] zeroes the captured-frame count and empties the
    history; the data set (every image-point, object-point and charuco
    entry, and the solver's fields), the target frame count, the board and
    the per-frame buffers are what they were. *)
Theorem resetState_frame p :
  mCapuredFrames (resetState p) = 0 /\
  mTemplateLocations (resetState p) = [] /\
  mCalibdata (resetState p) = mCalibdata p /\
  imagePoints (mCalibdata (resetState p)) = imagePoints (mCalibdata p) /\
  objectPoints (mCalibdata (resetState p)) = objectPoints (mCalibdata p) /\
  allCharucoCorners (mCalibdata (resetState p)) = allCharucoCorners (mCalibdata p) /\
  allCharucoIds (mCalibdata (resetState p)) = allCharucoIds (mCalibdata p) /\
  mNeededFramesNum (resetState p) = mNeededFramesNum p /\
  mBoardType (resetState p) = mBoardType p /\
  mBoardSize (resetState p) = mBoardSize p /\
  mCurrentImagePoints (resetState p) = mCurrentImagePoints p /\
  mCurrentCharucoCorners (resetState p) = mCurrentCharucoCorners p /\
  mCurrentCharucoIds (resetState p) = mCurrentCharucoIds p.
Proof.
  unfold resetState. cbn. repeat split; reflexivity.
Qed.

(* ------------------------------------------------------------------ *)
(** ** The nested loops of [saveFrameData] *)

Section RowMajor.
Variables (A B : Type) (g : A -> list B) (n : nat).
Hypothesis row_length : forall x, length (g x) = n.

Lemma length_flat_map_rows l : length (flat_map g l) = (length l * n)%nat.
Proof.
  induction l as [| x l IH]; cbn [flat_map length]; [reflexivity |].
  rewrite length_app, row_length, IH. lia.
Qed.

Lemma nth_error_flat_map_rows l : forall a b x,
  nth_error l a = Some x -> (b < n)%nat ->
  nth_error (flat_map g l) (a * n + b) = nth_error (g x) b.
Proof.
  induction l as [| y l IH]; intros a b x Ha Hb.
  - destruct a; discriminate.
  - destruct a as [| a]; cbn [flat_map].
    + injection Ha as ->. apply nth_error_app1. rewrite row_length. exact Hb.
    + rewrite nth_error_app2 by (rewrite row_length; lia).
      rewrite row_length.
      replace (S a * n + b - n)%nat with (a * n + b)%nat by lia.
      apply IH; assumption.
Qed.
End RowMajor.

Lemma length_range n : length (range n) = Z.to_nat n.
Proof. unfold range. rewrite length_map, length_seq. reflexivity. Qed.

Lemma nth_error_range n k :
  0 <= k < n -> nth_error (range n) (Z.to_nat k) = Some k.
Proof.
  intros Hk. unfold range. rewrite nth_error_map, nth_error_seq.
  destruct (Nat.ltb_spec (Z.to_nat k) (Z.to_nat n)); [| lia].
  cbn. f_equal. lia.
Qed.

Lemma length_gridLoop (A : Type) sz (f : Z -> Z -> A) :
  length (gridLoop sz f) = (Z.to_nat (height sz) * Z.to_nat (width sz))%nat.
Proof.
  unfold gridLoop.
  rewrite length_flat_map_rows with (n := Z.to_nat (width sz)).
  - rewrite length_range. reflexivity.
  - intros i. rewrite length_map, length_range. reflexivity.
Qed.

Lemma length_gridLoop_Z (A : Type) sz (f : Z -> Z -> A) :
  0 <= width sz -> 0 <= height sz ->
  Z.of_nat (length (gridLoop sz f)) = width sz * height sz.
Proof. intros Hw Hh. rewrite length_gridLoop. lia. Qed.

(** Element [(j,i)] sits at position [i * width + j]. *)
Lemma nth_error_gridLoop (A : Type) sz (f : Z -> Z -> A) i j :
  0 <= i < height sz -> 0 <= j < width sz ->
  nth_error (gridLoop sz f) (Z.to_nat (i * width sz + j)) = Some (f j i).
Proof.
  intros Hi Hj. unfold gridLoop.
  replace (Z.to_nat (i * width sz + j))
    with (Z.to_nat i * Z.to_nat (width sz) + Z.to_nat j)%nat by nia.
  rewrite nth_error_flat_map_rows with (x := i).
  - rewrite nth_error_map, nth_error_range by exact Hj. reflexivity.
  - intros x. rewrite length_map, length_range. reflexivity.
  - apply nth_error_range. exact Hi.
  - lia.
Qed.

Lemma rem_2_nonneg i : 0 <= i -> Z.rem i 2 = i mod 2.
Proof. intros Hi. apply Z.rem_mod_nonneg; lia. Qed.

Lemma saveFrameData_geometric p :
  mBoardType p <> chAruco ->
  mCalibdata (saveFrameData p) =
    push_geometric (mCurrentImagePoints p)
      (generatedObjectPoints (mBoardType p) (mBoardSize p)) (mCalibdata p).
Proof.
  destruct p as [d [] sz h cur cc ci n m]; cbn; intros H; congruence.
Qed.

Lemma saveFrameData_charuco p :
  mBoardType p = chAruco ->
  mCalibdata (saveFrameData p) =
    push_charuco (mCurrentCharucoCorners p) (mCurrentCharucoIds p) (mCalibdata p).
Proof.
  destruct p as [d [] sz h cur cc ci n m]; cbn; intros H; congruence.
Qed.

(** C5. For a board of [width] x [height] (within the [int] range of the
    index expressions) the object points pushed on capture are laid out row
    by row, point [(j,i)] at position [i*width + j], [width*height] of them;
    with [s] the binary32 constant [16.3f] (8545894 * 2^-19) the Chessboard point is
    [(j*s, i*s, 0)] and the AsymmetricCircleGrid point is
    [((2j + i mod 2)*s, i*s, 0)], each product rounded to binary32; and on
    the 6x9 chessboard the point [(j=2, i=1)] is [(32.6f, 16.3f, 0)]. *)
Theorem object_points_chessboard_acircles sz i j :
  boardInRange sz -> 0 <= i < height sz -> 0 <= j < width sz ->
  (forall p, mBoardType p <> chAruco -> mBoardSize p = sz ->
     objectPoints (mCalibdata (saveFrameData p)) =
       objectPoints (mCalibdata p) ++ [generatedObjectPoints (mBoardType p) sz]) /\
  Z.of_nat (length (generatedObjectPoints Chessboard sz)) = width sz * height sz /\
  Z.of_nat (length (generatedObjectPoints AcirclesGrid sz)) = width sz * height sz /\
  nth_error (generatedObjectPoints Chessboard sz) (Z.to_nat (i * width sz + j)) =
    Some (mkPoint3f (fmul (float_of_int j) squareSize)
                    (fmul (float_of_int i) squareSize) fzero) /\
  nth_error (generatedObjectPoints AcirclesGrid sz) (Z.to_nat (i * width sz + j)) =
    Some (mkPoint3f (fmul (float_of_int (2 * j + i mod 2)) squareSize)
                    (fmul (float_of_int i) squareSize) fzero) /\
  squareSize = S754_finite false 8545894 (-19) /\
  nth_error (generatedObjectPoints Chessboard board6x9) (Z.to_nat (1 * 6 + 2)) =
    Some (mkPoint3f (float_lit 326 10) (float_lit 163 10) fzero).
Proof.
  intros (Hw & Hh & _) Hi Hj. cbn [generatedObjectPoints].
  split; [| split; [| split; [| split; [| split; [| split]]]]].
  - intros p Hb <-. rewrite saveFrameData_geometric by exact Hb. reflexivity.
  - apply length_gridLoop_Z; assumption.
  - apply length_gridLoop_Z; assumption.
  - rewrite nth_error_gridLoop by assumption. reflexivity.
  - rewrite nth_error_gridLoop by assumption. unfold acirclesPoint.
    rewrite rem_2_nonneg by lia. reflexivity.
  - apply squareSize_bits.
  - vm_compute. reflexivity.
Qed.

Lemma object_points_chessboard_acircles_witness :
  boardInRange board6x9 /\ 0 <= 1 < height board6x9 /\ 0 <= 2 < width board6x9 /\
  nth_error (generatedObjectPoints AcirclesGrid board6x9) (Z.to_nat (1 * width board6x9 + 2)) =
    Some (mkPoint3f (fmul (float_of_int (2 * 2 + 1 mod 2)) squareSize)
                    (fmul (float_of_int 1) squareSize) fzero).
Proof.
  assert (R : boardInRange board6x9) by (unfold boardInRange; cbn; lia).
  assert (Hi : 0 <= 1 < height board6x9) by (cbn; lia).
  assert (Hj : 0 <= 2 < width board6x9) by (cbn; lia).
  split; [exact R |]. split; [exact Hi |]. split; [exact Hj |].
  exact (proj1 (proj2 (proj2 (proj2 (proj2
           (object_points_chessboard_acircles _ _ _ R Hi Hj)))))).
Defined.



(* ------------------------------------------------------------------ *)
(** ** The double circle grid adapter *)

(** The outcomes of the double circle grid adapter, path by path.  The
    adapter reports success exactly when both
    sub-grids are found (and the point buffer is then not empty).  When the
    white grid is missing it returns at once: the black grid is not looked
    for and the buffer holds what the white call wrote into it, which the
    code does not clear.  When the white grid is found and the black one is
    missing the buffer is cleared.  In both failures the history is
    untouched.  On success the buffer is the white points followed by the
    black points and the anchor pushed in front of the history is the first
    white point. *)
Theorem dual_detection_outcomes fr p :
  (forall q, detectAndParseDualACircles fr p = Some (true, q) ->
     fst (findCirclesGridWhite fr (mBoardSize p)) = true /\
     fst (findCirclesGridBlack fr (mBoardSize p)) = true) /\
  (fst (findCirclesGridWhite fr (mBoardSize p)) = false ->
     detectAndParseDualACircles fr p =
       Some (false, set_mCurrentImagePoints
                      (snd (findCirclesGridWhite fr (mBoardSize p))) p)) /\
  (fst (findCirclesGridWhite fr (mBoardSize p)) = true ->
   fst (findCirclesGridBlack fr (mBoardSize p)) = false ->
     detectAndParseDualACircles fr p = Some (false, set_mCurrentImagePoints [] p)) /\
  (forall a rest,
     fst (findCirclesGridWhite fr (mBoardSize p)) = true ->
     fst (findCirclesGridBlack fr (mBoardSize p)) = true ->
     snd (findCirclesGridWhite fr (mBoardSize p)) = a :: rest ->
     exists q,
       detectAndParseDualACircles fr p = Some (true, q) /\
       mCurrentImagePoints q =
         snd (findCirclesGridWhite fr (mBoardSize p))
           ++ snd (findCirclesGridBlack fr (mBoardSize p)) /\
       mTemplateLocations q = a :: mTemplateLocations p).
Proof.
  destruct p as [d board sz h cur cc ci n m].
  unfold detectAndParseDualACircles, insertAnchor.
  cbn [mBoardSize set_mCurrentImagePoints].
  destruct (findCirclesGridWhite fr sz) as [[|] w];
    destruct (findCirclesGridBlack fr sz) as [[|] b];
    cbn [fst snd negb mCurrentImagePoints set_mCurrentImagePoints
         mTemplateLocations set_mTemplateLocations mBoardSize];
    (split; [| split; [| split]]).
  (* white found, black found *)
  - intros q _. split; reflexivity.
  - intros H; discriminate H.
  - intros _ H; discriminate H.
  - intros a rest _ _ ->. cbn [app]. eexists. split; [reflexivity |].
    split; reflexivity.
  (* white found, black missing *)
  - intros q H; discriminate H.
  - intros H; discriminate H.
  - intros _ _. reflexivity.
  - intros a rest _ H; discriminate H.
  (* white missing *)
  - intros q H; discriminate H.
  - intros _. reflexivity.
  - intros H; discriminate H.
  - intros a rest H; discriminate H.
  - intros q H; discriminate H.
  - intros _. reflexivity.
  - intros H; discriminate H.
  - intros a rest H; discriminate H.
Qed.

Lemma dual_detection_outcomes_witness :
  fst (findCirclesGridWhite onlyBlackFrame board6x9) = false /\
  detectAndParseDualACircles onlyBlackFrame
      (CalibProcessor_new emptyData DoubleAcirclesGrid board6x9) =
    Some (false, set_mCurrentImagePoints [pixel 7 7]
                   (CalibProcessor_new emptyData DoubleAcirclesGrid board6x9)).
Proof.
  split; [reflexivity |].
  apply (proj1 (proj2 (dual_detection_outcomes onlyBlackFrame
                         (CalibProcessor_new emptyData DoubleAcirclesGrid board6x9)))).
  reflexivity.
Defined.

(** C7 (the code departs from the claim). On a frame where only the
    inverted-image grid is found, the white call having left one stray
    centre in the output array, the detection is absent but the point
    buffer keeps that centre: the white-missing path returns without the
    [clear()] that the black-missing path performs, as the run on a frame
    with the white grid found and the black one missing shows. *)
Lemma white_failure_keeps_detector_output :
  fst (findCirclesGridWhite onlyBlackFrame board6x9) = false /\
  fst (findCirclesGridBlack onlyBlackFrame board6x9) = true /\
  (exists q,
    detect onlyBlackFrame (CalibProcessor_new emptyData DoubleAcirclesGrid board6x9)
      = Some (false, q) /\
    mCurrentImagePoints q = [pixel 7 7] /\
    mCurrentImagePoints q <> []) /\
  fst (findCirclesGridWhite seenAtWhiteOnly board6x9) = true /\
  fst (findCirclesGridBlack seenAtWhiteOnly board6x9) = false /\
  (exists q,
    detect seenAtWhiteOnly (CalibProcessor_new emptyData DoubleAcirclesGrid board6x9)
      = Some (false, q) /\
    mCurrentImagePoints q = []).
Proof.
  split; [reflexivity |]. split; [reflexivity |]. split.
  - eexists. split; [reflexivity |]. split; [reflexivity | discriminate].
  - split; [reflexivity |]. split; [reflexivity |].
    eexists. split; reflexivity.
Qed.

(** When the detector writes nothing on failure, nothing is retained. *)
Lemma dual_failure_clean fr p found q :
  (fst (findCirclesGridWhite fr (mBoardSize p)) = false ->
   snd (findCirclesGridWhite fr (mBoardSize p)) = []) ->
  detectAndParseDualACircles fr p = Some (found, q) ->
  found = false -> mCurrentImagePoints q = [].
Proof.
  destruct p as [d board sz h cur cc ci n m].
  unfold detectAndParseDualACircles. cbn [mBoardSize set_mCurrentImagePoints].
  destruct (findCirclesGridWhite fr sz) as [[|] w];
    destruct (findCirclesGridBlack fr sz) as [[|] b]; cbn;
    intros Hw H Hf; subst found.
  - unfold insertAnchor in H; cbn in H. destruct (w ++ b); discriminate.
  - injection H as <-. reflexivity.
  - injection H as <-. cbn. auto.
  - injection H as <-. cbn. auto.
Qed.

(* ------------------------------------------------------------------ *)
(** ** Invariants of a call *)

Lemma capture_dataset q :
  (mBoardType q <> chAruco /\
   mCalibdata (capture q) =
     push_geometric (mCurrentImagePoints q)
       (generatedObjectPoints (mBoardType q) (mBoardSize q)) (mCalibdata q)) \/
  (mBoardType q = chAruco /\
   mCalibdata (capture q) =
     push_charuco (mCurrentCharucoCorners q) (mCurrentCharucoIds q) (mCalibdata q)).
Proof.
  destruct (capture_fields q) as (-> & _).
  destruct q as [d [] sz h cur cc ci n m]; cbn;
    first [left; split; [discriminate | reflexivity] | right; split; reflexivity].
Qed.

(** What a call may do to the processor: board and target are fixed, and
    the data set either stays or receives one sample of the board's kind. *)
Lemma processFrame_inv fr p p' :
  processFrame fr p = Some p' ->
  mBoardType p' = mBoardType p /\ mBoardSize p' = mBoardSize p /\
  mNeededFramesNum p' = mNeededFramesNum p /\
  (notCaptured p p' \/
   captured p p' /\
   ((mBoardType p <> chAruco /\
     exists img, mCalibdata p' =
       push_geometric img (generatedObjectPoints (mBoardType p) (mBoardSize p))
         (mCalibdata p)) \/
    (mBoardType p = chAruco /\
     exists c i, mCalibdata p' = push_charuco c i (mCalibdata p)))).
Proof.
  unfold processFrame. destruct (detect fr p) as [[found q]|] eqn:Hq; [|discriminate].
  intros Hg.
  destruct (detect_inv _ _ _ _ Hq) as (_ & Hd & Hb & Hs & Hn & Hm & _).
  destruct (evict_fields q) as (Ed & Eb & Es & En & Em & _).
  destruct (gate_spec found (evict q)) as [(_ & E) | (_ & E)];
    rewrite E in Hg; injection Hg as <-.
  - destruct (capture_fields (evict q)) as (_ & -> & -> & _ & -> & _).
    repeat (split; [congruence |]). right.
    split; [eapply captured_capture_evict; eauto |].
    destruct (capture_dataset (evict q)) as [(Hg & ->) | (Hg & ->)].
    + left. split; [congruence |]. eexists. rewrite Eb, Es, Ed, Hb, Hs, Hd. reflexivity.
    + right. split; [congruence |]. do 2 eexists. rewrite Ed, Hd. reflexivity.
  - repeat (split; [congruence |]). left. eapply notCaptured_evict; eauto.
Qed.

(** The history after a call, in terms of the history before it. *)
Lemma processFrame_history fr p p' :
  (length (mTemplateLocations p) <= 30)%nat ->
  processFrame fr p = Some p' ->
  exists found q,
    detect fr p = Some (found, q) /\
    (length (mTemplateLocations q) <= 31)%nat /\
    (found = true ->
     exists a, anchorOf (mBoardType p) (mBoardSize p) fr = Some a /\
               mTemplateLocations q = a :: mTemplateLocations p /\
               mTemplateLocations (evict q) = firstn 30 (a :: mTemplateLocations p)) /\
    (found = false ->
     mTemplateLocations q = mTemplateLocations p /\
     mTemplateLocations (evict q) = mTemplateLocations p) /\
    (mTemplateLocations p' = mTemplateLocations (evict q) \/
     captured p p' /\ mTemplateLocations p' = repeat Point2f_default 30).
Proof.
  intros Hlen Hp. pose proof Hp as Hp0. unfold processFrame in Hp.
  destruct (detect fr p) as [[found q]|] eqn:Hq; [|discriminate].
  destruct (detect_inv _ _ _ _ Hq) as (_ & _ & _ & _ & _ & _ & Hh & Ha).
  exists found, q. split; [reflexivity |].
  assert (Hq31 : (length (mTemplateLocations q) <= 31)%nat).
  { rewrite Hh. destruct found; [| lia].
    destruct (anchorOf _ _ fr); cbn [length]; lia. }
  split; [exact Hq31 |]. split; [| split].
  - intros ->. destruct (anchorOf _ _ fr) as [a|]; [| exfalso; apply Ha; reflexivity].
    exists a. split; [reflexivity |]. split; [exact Hh |].
    rewrite evict_history by exact Hq31. rewrite Hh. reflexivity.
  - intros ->. split; [exact Hh |].
    rewrite evict_history by exact Hq31. rewrite Hh.
    apply firstn_all2. exact Hlen.
  - destruct (gate_spec found (evict q)) as [(_ & E) | (_ & E)];
      rewrite E in Hp; injection Hp as <-.
    + right. split; [eapply captured_capture_evict; eauto | apply capture_fields].
    + left. reflexivity.
Qed.

Lemma processFrame_bounded fr p p' :
  (length (mTemplateLocations p) <= 30)%nat ->
  processFrame fr p = Some p' ->
  (length (mTemplateLocations p') <= 30)%nat.
Proof.
  intros Hlen Hp.
  destruct (processFrame_history _ _ _ Hlen Hp)
    as (found & q & Hq & Hq31 & _ & _ & [E | (_ & E)]); rewrite E.
  - rewrite evict_history by exact Hq31. rewrite length_firstn. lia.
  - rewrite repeat_length. lia.
Qed.

Lemma runFrames_bounded frames : forall p p',
  (length (mTemplateLocations p) <= 30)%nat ->
  runFrames frames p = Some p' ->
  (length (mTemplateLocations p') <= 30)%nat.
Proof.
  induction frames as [| fr rest IH]; intros p p' Hlen Hrun; cbn in Hrun.
  - injection Hrun as <-. exact Hlen.
  - destruct (processFrame fr p) as [p1|] eqn:Hp; [| discriminate].
    eapply IH; [| exact Hrun]. eapply processFrame_bounded; eauto.
Qed.

(** C9. Along any run from a freshly constructed processor the history
    holds at most 30 entries whenever [processFrame] returns.  Inside a
    call a detection puts the new anchor in front, which may make 31
    entries, and eviction then keeps the first 30: the entry dropped is the
    last one, the oldest, and the others keep their order, newest first. *)
Theorem anchor_history_bounded frames fr data board sz p p' :
  runFrames frames (CalibProcessor_new data board sz) = Some p ->
  processFrame fr p = Some p' ->
  (length (mTemplateLocations p) <= 30)%nat /\
  (length (mTemplateLocations p') <= 30)%nat /\
  exists found q,
    detect fr p = Some (found, q) /\
    (length (mTemplateLocations q) <= 31)%nat /\
    (found = true ->
     exists a, mTemplateLocations q = a :: mTemplateLocations p /\
               mTemplateLocations (evict q) = firstn 30 (a :: mTemplateLocations p) /\
               (length (mTemplateLocations p) = 30%nat ->
                mTemplateLocations (evict q) = a :: removelast (mTemplateLocations p))) /\
    (found = false -> mTemplateLocations (evict q) = mTemplateLocations p) /\
    (mTemplateLocations p' = mTemplateLocations (evict q) \/
     captured p p' /\ mTemplateLocations p' = repeat Point2f_default 30).
Proof.
  intros Hrun Hp.
  assert (Hlen : (length (mTemplateLocations p) <= 30)%nat).
  { eapply runFrames_bounded; [| exact Hrun]. cbn. lia. }
  split; [exact Hlen |].
  split; [eapply processFrame_bounded; eauto |].
  destruct (processFrame_history _ _ _ Hlen Hp)
    as (found & q & Hq & Hq31 & Ht & Hf & Hend).
  exists found, q. split; [exact Hq |]. split; [exact Hq31 |].
  split; [| split; [| exact Hend]].
  - intros Hfound. destruct (Ht Hfound) as (a & _ & Hins & Hev).
    exists a. split; [exact Hins |]. split; [exact Hev |].
    intros H30. rewrite Hev, removelast_firstn_len, H30. reflexivity.
  - intros Hfound. apply Hf. exact Hfound.
Qed.

Lemma anchor_history_bounded_witness :
  runFrames [] (CalibProcessor_new emptyData Chessboard board6x9)
    = Some (CalibProcessor_new emptyData Chessboard board6x9) /\
  processFrame (seenAt 500 500) (CalibProcessor_new emptyData Chessboard board6x9)
    = Some (mkCalibProcessor emptyData Chessboard board6x9
              [pixel 500 500] [pixel 500 500; pixel 550 500] [] [] 0 1) /\
  (length (mTemplateLocations
             (mkCalibProcessor emptyData Chessboard board6x9
                [pixel 500 500] [pixel 500 500; pixel 550 500] [] [] 0 1)) <= 30)%nat.
Proof.
  assert (Hrun : runFrames [] (CalibProcessor_new emptyData Chessboard board6x9)
                 = Some (CalibProcessor_new emptyData Chessboard board6x9))
    by reflexivity.
  assert (Hp : processFrame (seenAt 500 500)
                 (CalibProcessor_new emptyData Chessboard board6x9)
               = Some (mkCalibProcessor emptyData Chessboard board6x9
                         [pixel 500 500] [pixel 500 500; pixel 550 500] [] [] 0 1))
    by (vm_compute; reflexivity).
  split; [exact Hrun |]. split; [exact Hp |].
  exact (proj1 (proj2 (anchor_history_bounded [] (seenAt 500 500)
                         emptyData Chessboard board6x9 _ _ Hrun Hp))).
Defined.

(* ------------------------------------------------------------------ *)
(** ** Runs of frames *)

Lemma notCaptured_refl p : notCaptured p p.
Proof. split; reflexivity. Qed.

Lemma notCaptured_trans p q r : notCaptured p q -> notCaptured q r -> notCaptured p r.
Proof. unfold notCaptured. intros (H1 & H2) (H3 & H4). split; congruence. Qed.

Lemma detections_cons board sz fr rest :
  detections board sz (fr :: rest) =
    ((if templateFound board sz fr then 1 else 0) + detections board sz rest)%nat.
Proof. unfold detections. cbn [filter]. destruct (templateFound board sz fr); reflexivity. Qed.

(** While history length plus the detections still to come stay below 30,
    the run returns, nothing is captured, and every detection adds one
    entry to the history. *)
Lemma run_without_capture frames : forall p,
  Forall (fun fr => wellFormedFrame (mBoardType p) (mBoardSize p) fr = true) frames ->
  (length (mTemplateLocations p)
     + detections (mBoardType p) (mBoardSize p) frames < 30)%nat ->
  exists p',
    runFrames frames p = Some p' /\ notCaptured p p' /\
    length (mTemplateLocations p') =
      (length (mTemplateLocations p)
         + detections (mBoardType p) (mBoardSize p) frames)%nat.
Proof.
  induction frames as [| fr rest IH]; intros p Hwf Hlt.
  - exists p. cbn. split; [reflexivity |]. split; [apply notCaptured_refl | lia].
  - inversion Hwf as [| ? ? Hfr Hrest]; subst.
    rewrite detections_cons in Hlt |- *.
    destruct (processFrame_cases fr p Hfr) as (q & Hq & Hcases).
    destruct (detect_inv _ _ _ _ Hq) as (_ & _ & Hb & Hs & _ & _ & Hh & Ha).
    assert (Hlen : length (mTemplateLocations q) =
                   ((if templateFound (mBoardType p) (mBoardSize p) fr then 1 else 0)
                    + length (mTemplateLocations p))%nat).
    { rewrite Hh. destruct (templateFound (mBoardType p) (mBoardSize p) fr); [| reflexivity].
      destruct (anchorOf (mBoardType p) (mBoardSize p) fr);
        [reflexivity | exfalso; apply Ha; reflexivity]. }
    assert (Hev : evict q = q) by (apply evict_small; lia).
    rewrite Hev in Hcases.
    destruct Hcases as [((H30 & _) & _) | (_ & Hp)]; [lia |].
    destruct (IH q) as (p' & Hrun & Hnc & Hl).
    + rewrite Hb, Hs. exact Hrest.
    + rewrite Hb, Hs. lia.
    + exists p'. cbn [runFrames]. rewrite Hp. split; [exact Hrun |]. split.
      * eapply notCaptured_trans; [| exact Hnc].
        rewrite <- Hev. eapply notCaptured_evict; eauto.
      * rewrite Hl, Hb, Hs. lia.
Qed.

(** C3, as the code has it. From a freshly constructed processor, a
    sequence of (well-formed) frames with fewer than 30 successful
    detections in all, consecutive or not, is processed to the end without
    any capture: the counter and the data set are unchanged. *)
Theorem no_capture_below_30_detections data board sz frames :
  Forall (fun fr => wellFormedFrame board sz fr = true) frames ->
  (detections board sz frames < 30)%nat ->
  exists p',
    runFrames frames (CalibProcessor_new data board sz) = Some p' /\
    mCapuredFrames p' = 0 /\ mCalibdata p' = data /\
    length (mTemplateLocations p') = detections board sz frames.
Proof.
  intros Hwf Hlt.
  destruct (run_without_capture frames (CalibProcessor_new data board sz))
    as (p' & Hrun & (Hn & Hd) & Hl).
  - exact Hwf.
  - cbn. exact Hlt.
  - exists p'. split; [exact Hrun |]. split; [exact Hn |]. split; [exact Hd |].
    exact Hl.
Qed.

Lemma no_capture_below_30_detections_witness :
  Forall (fun fr => wellFormedFrame Chessboard board6x9 fr = true)
         [seenAt 500 500; missed; seenAt 500 500] /\
  (detections Chessboard board6x9 [seenAt 500 500; missed; seenAt 500 500] < 30)%nat /\
  exists p',
    runFrames [seenAt 500 500; missed; seenAt 500 500]
      (CalibProcessor_new emptyData Chessboard board6x9) = Some p' /\
    mCapuredFrames p' = 0 /\ mCalibdata p' = emptyData /\
    length (mTemplateLocations p') =
      detections Chessboard board6x9 [seenAt 500 500; missed; seenAt 500 500].
Proof.
  assert (Hwf : Forall (fun fr => wellFormedFrame Chessboard board6x9 fr = true)
                  [seenAt 500 500; missed; seenAt 500 500])
    by (repeat constructor).
  assert (Hlt : (detections Chessboard board6x9
                   [seenAt 500 500; missed; seenAt 500 500] < 30)%nat)
    by (cbv; lia).
  split; [exact Hwf |]. split; [exact Hlt |].
  exact (no_capture_below_30_detections emptyData Chessboard board6x9 _ Hwf Hlt).
Defined.

(** C3 as stated fails: in [interruptedHold] the longest stretch of
    consecutive detections is 29 frames, and the run captures. *)
Lemma interrupted_hold_captures :
  longestDetectionRun Chessboard board6x9 interruptedHold = 29%nat /\
  length interruptedHold = 31%nat /\
  exists p',
    runFrames interruptedHold (CalibProcessor_new emptyData Chessboard board6x9)
      = Some p' /\
    mCapuredFrames p' = 1 /\
    length (imagePoints (mCalibdata p')) = 1%nat.
Proof.
  split; [vm_compute; reflexivity |]. split; [reflexivity |].
  eexists. split; [vm_compute; reflexivity |]. split; reflexivity.
Qed.

(* ------------------------------------------------------------------ *)
(** ** Shape of the data set *)

Lemma generatedObjectPoints_length board sz :
  0 <= width sz -> 0 <= height sz ->
  Z.of_nat (length (generatedObjectPoints board sz)) = objectPointCount board sz.
Proof.
  intros Hw Hh. destruct board; cbn [generatedObjectPoints objectPointCount].
  - apply length_gridLoop_Z; assumption.
  - reflexivity.
  - apply length_gridLoop_Z; assumption.
  - rewrite length_app, Nat2Z.inj_add, !length_gridLoop_Z by assumption. lia.
Qed.

Lemma runFrames_dataset frames : forall p p',
  0 <= width (mBoardSize p) -> 0 <= height (mBoardSize p) ->
  runFrames frames p = Some p' ->
  mBoardType p' = mBoardType p /\ mBoardSize p' = mBoardSize p /\
  exists newImg newObj newCorners newIds,
    datasetGrowth p p' newImg newObj newCorners newIds /\
    length newImg = length newObj /\
    length newCorners = length newIds /\
    (mBoardType p = chAruco -> newImg = [] /\ newObj = []) /\
    (mBoardType p <> chAruco -> newCorners = [] /\ newIds = []) /\
    Forall (fun entry => Z.of_nat (length entry)
                         = objectPointCount (mBoardType p) (mBoardSize p)) newObj.
Proof.
  unfold datasetGrowth.
  induction frames as [| fr rest IH]; intros p p' Hw Hh Hrun; cbn [runFrames] in Hrun.
  - injection Hrun as <-. split; [reflexivity |]. split; [reflexivity |].
    exists [], [], [], []. rewrite !app_nil_r. repeat split; auto.
  - destruct (processFrame fr p) as [p1|] eqn:Hp; [| discriminate].
    destruct (processFrame_inv _ _ _ Hp) as (Hb & Hs & _ & Hstep).
    destruct (IH p1 p') as (Hb' & Hs' & ni & no & nc & nd & (Ei & Eo & Ec & Ed) & Hl1 & Hl2 & Hch & Hge & Hall);
      [rewrite Hs; exact Hw | rewrite Hs; exact Hh | exact Hrun |].
    rewrite Hb, Hs in *.
    split; [congruence |]. split; [congruence |].
    destruct Hstep as [(_ & Hsame) | (_ & [(Hgeo & img & Hpush) | (Hcha & c & i & Hpush)])].
    + exists ni, no, nc, nd. rewrite <- Hsame.
      split; [repeat split; assumption |]. split; [exact Hl1 |]. split; [exact Hl2 |].
      split; [exact Hch |]. split; [exact Hge | exact Hall].
    + exists (img :: ni), (generatedObjectPoints (mBoardType p) (mBoardSize p) :: no), nc, nd.
      rewrite Ei, Eo, Ec, Ed, Hpush. cbn [imagePoints objectPoints allCharucoCorners
        allCharucoIds push_geometric]. rewrite <- !app_assoc. cbn [app length].
      split; [repeat split |]. split; [lia |]. split; [exact Hl2 |].
      split; [intros; contradiction |]. split; [exact Hge |].
      constructor; [apply generatedObjectPoints_length; assumption | exact Hall].
    + exists ni, no, (c :: nc), (i :: nd).
      rewrite Ei, Eo, Ec, Ed, Hpush. cbn [imagePoints objectPoints allCharucoCorners
        allCharucoIds push_charuco]. rewrite <- !app_assoc. cbn [app length].
      split; [repeat split |]. split; [exact Hl1 |]. split; [lia |].
      split; [exact Hch |]. split; [intros; contradiction |]. exact Hall.
Qed.

(** C10. Over any sequence of [processFrame] calls (on a board of
    non-negative dimensions) the image-point and object-point sequences
    grow by the same number of entries, so they stay of equal length, and
    so do the charuco corner and id sequences; every object-point entry
    added holds [width*height] points ([2*width*height] for the double
    grid); a geometric board never adds charuco entries and the marker
    board never adds image/object entries. *)
Theorem dataset_shape_invariant frames p p' :
  0 <= width (mBoardSize p) -> 0 <= height (mBoardSize p) ->
  runFrames frames p = Some p' ->
  exists newImg newObj newCorners newIds,
    datasetGrowth p p' newImg newObj newCorners newIds /\
    length newImg = length newObj /\
    length newCorners = length newIds /\
    (length (imagePoints (mCalibdata p)) = length (objectPoints (mCalibdata p)) ->
     length (imagePoints (mCalibdata p')) = length (objectPoints (mCalibdata p'))) /\
    (length (allCharucoCorners (mCalibdata p)) = length (allCharucoIds (mCalibdata p)) ->
     length (allCharucoCorners (mCalibdata p')) = length (allCharucoIds (mCalibdata p'))) /\
    Forall (fun entry => Z.of_nat (length entry)
                         = objectPointCount (mBoardType p) (mBoardSize p)) newObj /\
    (mBoardType p = chAruco -> newImg = [] /\ newObj = []) /\
    (mBoardType p <> chAruco -> newCorners = [] /\ newIds = []) /\
    (newImg = [] /\ newObj = [] \/ newCorners = [] /\ newIds = []).
Proof.
  intros Hw Hh Hrun.
  destruct (runFrames_dataset frames p p' Hw Hh Hrun)
    as (_ & _ & ni & no & nc & nd & Hgrow & Hl1 & Hl2 & Hch & Hge & Hall).
  exists ni, no, nc, nd.
  pose proof Hgrow as (Ei & Eo & Ec & Ed).
  split; [exact Hgrow |]. split; [exact Hl1 |]. split; [exact Hl2 |].
  split; [intros H; rewrite Ei, Eo, !length_app; lia |].
  split; [intros H; rewrite Ec, Ed, !length_app; lia |].
  split; [exact Hall |]. split; [exact Hch |]. split; [exact Hge |].
  destruct (mBoardType p) eqn:Eb;
    first [left; apply Hch; reflexivity | right; apply Hge; discriminate].
Qed.

Lemma dataset_shape_invariant_witness :
  0 <= width board6x9 /\ 0 <= height board6x9 /\
  runFrames [seenAt 10 10] (chessboardHolding (repeat (pixel 10 10) 29))
  = Some (mkCalibProcessor
            (push_geometric [pixel 10 10; pixel 60 10]
               (generatedObjectPoints Chessboard board6x9) emptyData)
            Chessboard board6x9 (repeat Point2f_default 30)
            [pixel 10 10; pixel 60 10] [] [] 1 1) /\
  exists newImg newObj newCorners newIds,
    datasetGrowth
      (chessboardHolding (repeat (pixel 10 10) 29))
      (mkCalibProcessor
            (push_geometric [pixel 10 10; pixel 60 10]
               (generatedObjectPoints Chessboard board6x9) emptyData)
            Chessboard board6x9 (repeat Point2f_default 30)
            [pixel 10 10; pixel 60 10] [] [] 1 1)
      newImg newObj newCorners newIds /\
    length newImg = length newObj.
Proof.
  assert (Hw : 0 <= width board6x9) by (cbn; lia).
  assert (Hh : 0 <= height board6x9) by (cbn; lia).
  assert (Hrun : runFrames [seenAt 10 10] (chessboardHolding (repeat (pixel 10 10) 29))
  = Some (mkCalibProcessor
            (push_geometric [pixel 10 10; pixel 60 10]
               (generatedObjectPoints Chessboard board6x9) emptyData)
            Chessboard board6x9 (repeat Point2f_default 30)
            [pixel 10 10; pixel 60 10] [] [] 1 1))
    by (vm_compute; reflexivity).
  split; [exact Hw |]. split; [exact Hh |]. split; [exact Hrun |].
  destruct (dataset_shape_invariant [seenAt 10 10]
              (chessboardHolding (repeat (pixel 10 10) 29)) _ Hw Hh Hrun)
    as (ni & no & nc & nd & Hg & Hl & _).
  exists ni, no, nc, nd. split; [exact Hg | exact Hl].
Defined.

(* ------------------------------------------------------------------ *)
(** ** The movement test *)

Lemma binary_round_aux_sign prec emax m e l :
  binary_round_aux prec emax true m e l = SFopp (binary_round_aux prec emax false m e l).
Proof.
  unfold binary_round_aux.
  destruct (shr_fexp prec emax m e l) as [mrs' e'].
  destruct (shr_fexp prec emax _ e' loc_Exact) as [mrs'' e''].
  destruct (shr_m mrs''); cbn; try reflexivity.
  destruct (Z.leb e'' (Z.sub emax prec)); reflexivity.
Qed.

Lemma binary_normalize_opp prec emax z e :
  z <> 0 ->
  binary_normalize prec emax (- z) e false = SFopp (binary_normalize prec emax z e false).
Proof.
  destruct z as [| p | p]; intros Hz; [congruence | |]; cbn [Z.opp binary_normalize];
    unfold binary_round;
    destruct (shl_align p e _) as [mz ez]; rewrite binary_round_aux_sign.
  - reflexivity.
  - destruct (binary_round_aux prec emax false (Zpos mz) ez loc_Exact) as [[|]|[|]| |[|] ? ?];
      reflexivity.
Qed.

Lemma double_of_float_opp x : double_of_float (SFopp x) = SFopp (double_of_float x).
Proof.
  destruct x as [s | s | | s m e]; try reflexivity.
  cbn [SFopp double_of_float].
  replace (cond_Zopp (negb s) (Zpos m)) with (- cond_Zopp s (Zpos m))
    by (destruct s; reflexivity).
  apply binary_normalize_opp. destruct s; discriminate.
Qed.

Lemma dmul_opp_opp d : dmul (SFopp d) (SFopp d) = dmul d d.
Proof. destruct d as [[|] | [|] | | [|] m e]; reflexivity. Qed.

Lemma squared_opp x : squared (SFopp x) = squared x.
Proof. unfold squared. rewrite double_of_float_opp. apply dmul_opp_opp. Qed.

Lemma squared_zero s : squared (S754_zero s) = S754_zero false.
Proof. destruct s; reflexivity. Qed.

Lemma fsub_swap a b :
  fsub b a = SFopp (fsub a b) \/
  (exists s s', fsub a b = S754_zero s /\ fsub b a = S754_zero s').
Proof.
  destruct a as [sa | sa | | sa ma ea], b as [sb | sb | | sb mb eb];
    try (left; destruct sa; try destruct sb; reflexivity);
    try (left; destruct sb; reflexivity);
    try (left; reflexivity).
  - right. destruct sa, sb; cbn; eauto.
  - unfold fsub, SFsub. rewrite (Z.min_comm eb ea).
    set (A := cond_Zopp sa (Zpos (fst (shl_align ma ea (Z.min ea eb))))).
    set (B := cond_Zopp sb (Zpos (fst (shl_align mb eb (Z.min ea eb))))).
    destruct (Z.eq_dec (A - B) 0) as [E | E].
    + right. replace (B - A) with 0 by lia. rewrite E. cbn. eauto.
    + left. replace (B - A) with (- (A - B)) by lia.
      apply binary_normalize_opp. exact E.
Qed.

Lemma squared_fsub_swap a b : squared (fsub a b) = squared (fsub b a).
Proof.
  destruct (fsub_swap a b) as [E | (s & s' & E1 & E2)].
  - rewrite E, squared_opp. reflexivity.
  - rewrite E1, E2, !squared_zero. reflexivity.
Qed.

Lemma norm_sub_swap a b : norm (Point2f_sub a b) = norm (Point2f_sub b a).
Proof.
  unfold norm, Point2f_sub. cbn [p2x p2y].
  change (dsqrt (dadd (squared (fsub (p2x a) (p2x b))) (squared (fsub (p2y a) (p2y b)))) =
          dsqrt (dadd (squared (fsub (p2x b) (p2x a))) (squared (fsub (p2y b) (p2y a))))).
  rewrite (squared_fsub_swap (p2x a)), (squared_fsub_swap (p2y a)). reflexivity.
Qed.

Lemma fsub_self x : finiteCoord x = true -> fsub x x = S754_zero false.
Proof.
  destruct x as [[|] | | | s m e]; try discriminate; intros _; try reflexivity.
  unfold fsub, SFsub. rewrite Z.sub_diag. reflexivity.
Qed.

Lemma norm_sub_self a :
  finitePoint a = true -> norm (Point2f_sub a a) = S754_zero false.
Proof.
  unfold finitePoint. intros H. apply andb_true_iff in H as (Hx & Hy).
  unfold norm, Point2f_sub. cbn [p2x p2y]. rewrite !fsub_self by assumption.
  reflexivity.
Qed.

Lemma squared_nonfinite x :
  finiteCoord x = false ->
  squared x = S754_nan \/ squared x = S754_infinity false.
Proof.
  destruct x as [s | [|] | | s m e]; try discriminate; intros _; cbn; auto.
Qed.

Lemma fsub_nonfinite a b :
  finiteCoord a && finiteCoord b = false -> finiteCoord (fsub a b) = false.
Proof.
  destruct a as [sa | [|] | | sa ma ea], b as [sb | [|] | | sb mb eb];
    try discriminate; intros _; reflexivity.
Qed.

Lemma dlt_sqrt_dadd_nonfinite X Y :
  (X = S754_nan \/ X = S754_infinity false) \/
  (Y = S754_nan \/ Y = S754_infinity false) ->
  dlt (dsqrt (dadd X Y)) maxTemplateOffset = false.
Proof.
  intros [[-> | ->] | [-> | ->]].
  - reflexivity.
  - destruct Y as [s | [|] | | s m e]; reflexivity.
  - destruct X as [s | s | | s m e]; reflexivity.
  - destruct X as [s | [|] | | s m e]; reflexivity.
Qed.

Lemma norm_nonfinite a b :
  finitePoint a && finitePoint b = false ->
  dlt (norm (Point2f_sub a b)) maxTemplateOffset = false.
Proof.
  intros H. unfold norm, Point2f_sub. cbn [p2x p2y].
  change (dlt (dsqrt (dadd (squared (fsub (p2x a) (p2x b)))
                           (squared (fsub (p2y a) (p2y b))))) maxTemplateOffset = false).
  apply dlt_sqrt_dadd_nonfinite.
  assert (Hc : finiteCoord (p2x a) && finiteCoord (p2x b) = false \/
               finiteCoord (p2y a) && finiteCoord (p2y b) = false).
  { unfold finitePoint in H.
    destruct (finiteCoord (p2x a)), (finiteCoord (p2x b)),
             (finiteCoord (p2y a)), (finiteCoord (p2y b)); cbn in *; auto. }
  destruct Hc as [Hc | Hc]; [left | right];
    apply squared_nonfinite, fsub_nonfinite; exact Hc.
Qed.

Lemma withinOffset_ends h newest oldest :
  nth_error h 0 = Some newest -> nth_error h 29 = Some oldest ->
  withinOffset h =
    Some (dlt (norm (Point2f_sub newest oldest)) maxTemplateOffset).
Proof.
  intros H0 H29. unfold withinOffset, delayBetweenCaptures. cbn [Nat.sub].
  rewrite H0, H29. reflexivity.
Qed.

(** X12. The movement test does not depend on the direction of the motion:
    a full history and the same history in reverse order get the same
    verdict. *)
Theorem withinOffset_direction_free h :
  length h = 30%nat -> withinOffset (rev h) = withinOffset h.
Proof.
  intros Hlen.
  destruct (nth_error h 0) as [a|] eqn:Ha;
    [| apply nth_error_None in Ha; lia].
  destruct (nth_error h 29) as [b|] eqn:Hb;
    [| apply nth_error_None in Hb; lia].
  rewrite (withinOffset_ends h a b Ha Hb).
  rewrite (withinOffset_ends (rev h) b a).
  - rewrite norm_sub_swap. reflexivity.
  - rewrite nth_error_rev, Hlen. cbn. exact Hb.
  - rewrite nth_error_rev, Hlen. cbn. exact Ha.
Qed.

Lemma withinOffset_direction_free_witness :
  length fullHistory = 30%nat /\ withinOffset (rev fullHistory) = withinOffset fullHistory.
Proof.
  split; [reflexivity |].
  apply (withinOffset_direction_free fullHistory). reflexivity.
Defined.

(** X13. Edge values of the movement test on a full history: when the newest
    and the oldest entry are the same point with finite coordinates the
    test passes, and when a coordinate of either of them is NaN or infinite
    it fails. *)
Theorem withinOffset_still_and_nonfinite h newest oldest :
  nth_error h 0 = Some newest -> nth_error h 29 = Some oldest ->
  (newest = oldest -> finitePoint newest = true -> withinOffset h = Some true) /\
  (finitePoint newest && finitePoint oldest = false -> withinOffset h = Some false).
Proof.
  intros H0 H29. rewrite (withinOffset_ends h newest oldest H0 H29). split.
  - intros <- Hfin. rewrite norm_sub_self by exact Hfin. reflexivity.
  - intros Hnf. rewrite norm_nonfinite by exact Hnf. reflexivity.
Qed.

Lemma withinOffset_still_and_nonfinite_witness :
  nth_error (repeat (pixel 10 10) 30) 0 = Some (pixel 10 10) /\
  nth_error (repeat (pixel 10 10) 30) 29 = Some (pixel 10 10) /\
  withinOffset (repeat (pixel 10 10) 30) = Some true.
Proof.
  assert (H0 : nth_error (repeat (pixel 10 10) 30) 0 = Some (pixel 10 10)) by reflexivity.
  assert (H29 : nth_error (repeat (pixel 10 10) 30) 29 = Some (pixel 10 10)) by reflexivity.
  split; [exact H0 |]. split; [exact H29 |].
  apply (proj1 (withinOffset_still_and_nonfinite _ _ _ H0 H29)); reflexivity.
Defined.

(* ------------------------------------------------------------------ *)
(** ** Counters and configuration along a run *)

(** The shape of a call that returns, without any assumption on the frame. *)
Lemma processFrame_step fr p p' :
  processFrame fr p = Some p' ->
  exists q,
    detect fr p = Some (templateFound (mBoardType p) (mBoardSize p) fr, q) /\
    (p' = evict q \/
     steadyHold (templateFound (mBoardType p) (mBoardSize p) fr)
       (mTemplateLocations (evict q)) /\ p' = capture (evict q)).
Proof.
  unfold processFrame. destruct (detect fr p) as [[found q]|] eqn:Hq; [| discriminate].
  intros Hg. destruct (detect_inv _ _ _ _ Hq) as (Hf & _). subst found.
  exists q. split; [reflexivity |].
  destruct (gate_spec (templateFound (mBoardType p) (mBoardSize p) fr) (evict q))
    as [(Hs & E) | (_ & E)]; rewrite E in Hg; injection Hg as <-; auto.
Qed.

Lemma runFrames_app xs ys p :
  runFrames (xs ++ ys) p =
    match runFrames xs p with Some q => runFrames ys q | None => None end.
Proof.
  revert p. induction xs as [| fr xs IH]; intros p; cbn [app runFrames]; [reflexivity |].
  destruct (processFrame fr p); [apply IH | reflexivity].
Qed.

Lemma solverFields_push_geometric img obj d :
  solverFields (push_geometric img obj d) = solverFields d.
Proof. reflexivity. Qed.

Lemma solverFields_push_charuco c i d :
  solverFields (push_charuco c i d) = solverFields d.
Proof. reflexivity. Qed.

(** One call: the counter and the sample count move together, by zero or
    by one, and the solver's fields stay. *)
Lemma processFrame_counts fr p p' :
  processFrame fr p = Some p' ->
  solverFields (mCalibdata p') = solverFields (mCalibdata p) /\
  (mCapuredFrames p' = mCapuredFrames p /\
   sampleCount (mCalibdata p') = sampleCount (mCalibdata p) \/
   mCapuredFrames p' = mCapuredFrames p + 1 /\
   sampleCount (mCalibdata p') = S (sampleCount (mCalibdata p))).
Proof.
  intros Hp. destruct (processFrame_inv _ _ _ Hp) as (_ & _ & _ & Hcase).
  destruct Hcase as [(Hn & Hd) | ((Hn & Hs) & Hpush)].
  - rewrite Hd. split; [reflexivity |]. left. split; [exact Hn | reflexivity].
  - split; [| right; split; assumption].
    destruct Hpush as [(_ & img & ->) | (_ & c & i & ->)]; reflexivity.
Qed.

Lemma runFrames_counts frames : forall p p',
  runFrames frames p = Some p' ->
  mBoardType p' = mBoardType p /\ mBoardSize p' = mBoardSize p /\
  mNeededFramesNum p' = mNeededFramesNum p /\
  solverFields (mCalibdata p') = solverFields (mCalibdata p) /\
  mCapuredFrames p <= mCapuredFrames p' /\
  mCapuredFrames p' - mCapuredFrames p <= Z.of_nat (length frames) /\
  mCapuredFrames p' - mCapuredFrames p =
    Z.of_nat (sampleCount (mCalibdata p')) - Z.of_nat (sampleCount (mCalibdata p)).
Proof.
  induction frames as [| fr rest IH]; intros p p' Hrun; cbn [runFrames] in Hrun.
  - injection Hrun as <-. cbn [length]. repeat split; lia.
  - destruct (processFrame fr p) as [p1|] eqn:Hp; [| discriminate].
    destruct (processFrame_inv _ _ _ Hp) as (Hb & Hs & Hm & _).
    destruct (processFrame_counts _ _ _ Hp) as (Hsol & Hcnt).
    destruct (IH _ _ Hrun) as (Hb' & Hs' & Hm' & Hsol' & Hle & Hup & Heq).
    cbn [length].
    repeat (split; [congruence |]).
    destruct Hcnt as [(Hn & Hc) | (Hn & Hc)]; rewrite Hn, Hc in *;
      repeat split; lia.
Qed.

(** X4. Over any run of [processFrame] calls the captured-frame counter
    never decreases, grows by at most one per frame, and grows by exactly
    the number of samples added to the data set. *)
Theorem captures_match_samples frames p p' :
  runFrames frames p = Some p' ->
  mCapuredFrames p <= mCapuredFrames p' /\
  mCapuredFrames p' - mCapuredFrames p <= Z.of_nat (length frames) /\
  mCapuredFrames p' - mCapuredFrames p =
    Z.of_nat (sampleCount (mCalibdata p')) - Z.of_nat (sampleCount (mCalibdata p)).
Proof.
  intros Hrun. destruct (runFrames_counts _ _ _ Hrun) as (_ & _ & _ & _ & H).
  exact H.
Qed.

Lemma captures_match_samples_witness :
  runFrames [missed; seenAt 10 10] (chessboardHolding (repeat (pixel 10 10) 29))
  = Some (mkCalibProcessor
            (push_geometric [pixel 10 10; pixel 60 10]
               (generatedObjectPoints Chessboard board6x9) emptyData)
            Chessboard board6x9 (repeat Point2f_default 30)
            [pixel 10 10; pixel 60 10] [] [] 1 1) /\
  1 - 0 <= Z.of_nat 2.
Proof.
  assert (Hrun : runFrames [missed; seenAt 10 10]
                   (chessboardHolding (repeat (pixel 10 10) 29))
  = Some (mkCalibProcessor
            (push_geometric [pixel 10 10; pixel 60 10]
               (generatedObjectPoints Chessboard board6x9) emptyData)
            Chessboard board6x9 (repeat Point2f_default 30)
            [pixel 10 10; pixel 60 10] [] [] 1 1))
    by (vm_compute; reflexivity).
  split; [exact Hrun |].
  exact (proj1 (proj2 (captures_match_samples _ _ _ Hrun))).
Defined.

(** X6. Processing frames never changes the board type, the board size or
    the target frame count, and never writes the solver's part of the data
    set (camera matrix, distortion coefficients, fit error); hence it never
    switches the preview between its placeholder and its undistorted
    view. *)
Theorem run_preserves_configuration frames p p' :
  runFrames frames p = Some p' ->
  mBoardType p' = mBoardType p /\ mBoardSize p' = mBoardSize p /\
  mNeededFramesNum p' = mNeededFramesNum p /\
  cameraMatrix (mCalibdata p') = cameraMatrix (mCalibdata p) /\
  distCoeffs (mCalibdata p') = distCoeffs (mCalibdata p) /\
  totalAvgErr (mCalibdata p') = totalAvgErr (mCalibdata p) /\
  ShowProcessor_undistorts (mCalibdata p') = ShowProcessor_undistorts (mCalibdata p).
Proof.
  intros Hrun.
  destruct (runFrames_counts _ _ _ Hrun) as (Hb & Hs & Hm & Hsol & _).
  unfold solverFields in Hsol. injection Hsol as Hc Hd He.
  unfold ShowProcessor_undistorts. rewrite Hc, Hd.
  repeat split; assumption.
Qed.

Lemma run_preserves_configuration_witness :
  runFrames [missed; seenAt 10 10] (chessboardHolding (repeat (pixel 10 10) 29))
  = Some (mkCalibProcessor
            (push_geometric [pixel 10 10; pixel 60 10]
               (generatedObjectPoints Chessboard board6x9) emptyData)
            Chessboard board6x9 (repeat Point2f_default 30)
            [pixel 10 10; pixel 60 10] [] [] 1 1) /\
  ShowProcessor_undistorts
    (push_geometric [pixel 10 10; pixel 60 10]
       (generatedObjectPoints Chessboard board6x9) emptyData)
  = ShowProcessor_undistorts emptyData.
Proof.
  assert (Hrun : runFrames [missed; seenAt 10 10]
                   (chessboardHolding (repeat (pixel 10 10) 29))
  = Some (mkCalibProcessor
            (push_geometric [pixel 10 10; pixel 60 10]
               (generatedObjectPoints Chessboard board6x9) emptyData)
            Chessboard board6x9 (repeat Point2f_default 30)
            [pixel 10 10; pixel 60 10] [] [] 1 1))
    by (vm_compute; reflexivity).
  split; [exact Hrun |].
  exact (proj2 (proj2 (proj2 (proj2 (proj2 (proj2
           (run_preserves_configuration _ _ _ Hrun))))))).
Defined.

(** X5. [isProcessed] is monotone under [processFrame]: once the target
    number of captures is reached it stays reached however many more
    frames are processed. *)
Theorem isProcessed_monotone frames p p' :
  runFrames frames p = Some p' ->
  isProcessed p = true -> isProcessed p' = true.
Proof.
  intros Hrun. destruct (runFrames_counts _ _ _ Hrun) as (_ & _ & Hm & _ & Hle & _).
  unfold isProcessed. rewrite Hm.
  destruct (Z.ltb_spec (mCapuredFrames p) (mNeededFramesNum p)); [discriminate |].
  destruct (Z.ltb_spec (mCapuredFrames p') (mNeededFramesNum p)); [lia | reflexivity].
Qed.

Lemma isProcessed_monotone_witness :
  runFrames [missed]
    (mkCalibProcessor emptyData Chessboard board6x9 [] [] [] [] 1 1)
  = Some (mkCalibProcessor emptyData Chessboard board6x9 [] [] [] [] 1 1) /\
  isProcessed (mkCalibProcessor emptyData Chessboard board6x9 [] [] [] [] 1 1) = true.
Proof.
  assert (Hrun : runFrames [missed]
                   (mkCalibProcessor emptyData Chessboard board6x9 [] [] [] [] 1 1)
                 = Some (mkCalibProcessor emptyData Chessboard board6x9 [] [] [] [] 1 1))
    by (vm_compute; reflexivity).
  split; [exact Hrun |].
  apply (isProcessed_monotone _ _ _ Hrun). reflexivity.
Defined.

(* ------------------------------------------------------------------ *)
(** ** The history as a window over the detections *)

Lemma firstn_app_firstn (A : Type) n (l m : list A) :
  firstn n (l ++ firstn n m) = firstn n (l ++ m).
Proof.
  rewrite !firstn_app, firstn_firstn. f_equal. f_equal. lia.
Qed.

Lemma length_evict_le q :
  (length (mTemplateLocations (evict q)) <= length (mTemplateLocations q))%nat.
Proof.
  unfold evict. destruct (_ <? _)%nat; [| lia].
  cbn [mTemplateLocations set_mTemplateLocations].
  rewrite removelast_firstn_len, length_firstn. lia.
Qed.

Lemma anchorsOf_length board sz frames :
  Forall (fun fr => wellFormedFrame board sz fr = true) frames ->
  length (anchorsOf board sz frames) = detections board sz frames.
Proof.
  induction 1 as [| fr rest Hfr _ IH]; [reflexivity |].
  rewrite detections_cons. cbn [anchorsOf]. rewrite length_app, IH.
  unfold wellFormedFrame in Hfr.
  destruct (templateFound board sz fr); [| reflexivity].
  destruct (anchorOf board sz fr); [reflexivity | discriminate].
Qed.

(** The history after a call that did not capture. *)
Lemma processFrame_window fr p p' :
  (length (mTemplateLocations p) <= 30)%nat ->
  processFrame fr p = Some p' ->
  mCapuredFrames p' = mCapuredFrames p ->
  mTemplateLocations p' =
    firstn 30 (rev (anchorsOf (mBoardType p) (mBoardSize p) [fr]) ++ mTemplateLocations p).
Proof.
  intros Hlen Hp Hsame.
  destruct (processFrame_history _ _ _ Hlen Hp)
    as (found & q & Hq & _ & Ht & Hf & Hend).
  destruct (detect_inv _ _ _ _ Hq) as (Hfound & _).
  assert (E : mTemplateLocations p' = mTemplateLocations (evict q)).
  { destruct Hend as [E | ((Hc & _) & _)]; [exact E | lia]. }
  rewrite E. cbn [anchorsOf]. rewrite app_nil_r, <- Hfound.
  destruct found.
  - destruct (Ht eq_refl) as (a & -> & _ & ->). reflexivity.
  - destruct (Hf eq_refl) as (_ & ->). cbn [rev app].
    symmetry. apply firstn_all2. exact Hlen.
Qed.

Lemma anchorsOf_cons board sz fr rest :
  anchorsOf board sz (fr :: rest) = anchorsOf board sz [fr] ++ anchorsOf board sz rest.
Proof. cbn [anchorsOf]. rewrite app_nil_r. reflexivity. Qed.

Lemma run_window frames : forall p p',
  (length (mTemplateLocations p) <= 30)%nat ->
  runFrames frames p = Some p' ->
  mCapuredFrames p' = mCapuredFrames p ->
  mTemplateLocations p' =
    firstn 30 (rev (anchorsOf (mBoardType p) (mBoardSize p) frames)
               ++ mTemplateLocations p).
Proof.
  induction frames as [| fr rest IH]; intros p p' Hlen Hrun Hsame;
    cbn [runFrames] in Hrun.
  - injection Hrun as <-. cbn [anchorsOf rev app]. symmetry.
    apply firstn_all2. exact Hlen.
  - destruct (processFrame fr p) as [p1|] eqn:Hp; [| discriminate].
    destruct (processFrame_inv _ _ _ Hp) as (Hb & Hs & _).
    destruct (processFrame_counts _ _ _ Hp) as (_ & Hcnt).
    destruct (runFrames_counts _ _ _ Hrun) as (_ & _ & _ & _ & Hle & _).
    assert (H1 : mCapuredFrames p1 = mCapuredFrames p)
      by (destruct Hcnt as [(Hn & _) | (Hn & _)]; lia).
    rewrite (IH p1 p' (processFrame_bounded _ _ _ Hlen Hp) Hrun) by lia.
    rewrite (processFrame_window _ _ _ Hlen Hp H1), Hb, Hs.
    rewrite firstn_app_firstn, (anchorsOf_cons _ _ fr rest), rev_app_distr, app_assoc.
    reflexivity.
Qed.

(** X1. As long as a run does not capture, the history is a sliding window
    over the detections: it holds the most recent (at most 30) anchors,
    newest first, in front of what is left of the history the run started
    with; frames without detection leave no trace in it. *)
Theorem history_is_sliding_window frames p p' :
  (length (mTemplateLocations p) <= 30)%nat ->
  runFrames frames p = Some p' ->
  mCapuredFrames p' = mCapuredFrames p ->
  mTemplateLocations p' =
    firstn 30 (rev (anchorsOf (mBoardType p) (mBoardSize p) frames)
               ++ mTemplateLocations p).
Proof. apply run_window. Qed.

Lemma history_is_sliding_window_witness :
  (length (mTemplateLocations (chessboardHolding fullHistory)) <= 30)%nat /\
  runFrames [seenAt 500 500; missed] (chessboardHolding fullHistory)
  = Some (mkCalibProcessor emptyData Chessboard board6x9
            (pixel 500 500 :: repeat (pixel 10 10) 29) [] [] [] 0 1) /\
  pixel 500 500 :: repeat (pixel 10 10) 29 =
    firstn 30 (rev (anchorsOf Chessboard board6x9 [seenAt 500 500; missed])
               ++ fullHistory).
Proof.
  assert (Hlen : (length (mTemplateLocations (chessboardHolding fullHistory)) <= 30)%nat)
    by (vm_compute; lia).
  assert (Hrun : runFrames [seenAt 500 500; missed] (chessboardHolding fullHistory)
                 = Some (mkCalibProcessor emptyData Chessboard board6x9
                           (pixel 500 500 :: repeat (pixel 10 10) 29) [] [] [] 0 1))
    by (vm_compute; reflexivity).
  split; [exact Hlen |]. split; [exact Hrun |].
  exact (history_is_sliding_window _ _ _ Hlen Hrun eq_refl).
Defined.

(** X2. The thirtieth detection decides, and only the two ends of the
    window are looked at.  From a fresh processor, after 29 detections
    (with any number of dropped frames in between) one more detected frame
    captures exactly when [cv::norm] of its anchor minus the first anchor
    is below the threshold, whatever the 28 anchors in between were;
    otherwise nothing is captured and the history is the 30 anchors,
    newest first. *)
Theorem thirtieth_detection_decides data board sz pre last oldest newest :
  Forall (fun fr => wellFormedFrame board sz fr = true) pre ->
  detections board sz pre = 29%nat ->
  hd_error (anchorsOf board sz pre) = Some oldest ->
  templateFound board sz last = true ->
  anchorOf board sz last = Some newest ->
  exists p',
    runFrames (pre ++ [last]) (CalibProcessor_new data board sz) = Some p' /\
    if dlt (norm (Point2f_sub newest oldest)) maxTemplateOffset
    then mCapuredFrames p' = 1 /\
         sampleCount (mCalibdata p') = S (sampleCount data) /\
         mTemplateLocations p' = repeat Point2f_default 30
    else mCapuredFrames p' = 0 /\ mCalibdata p' = data /\
         mTemplateLocations p' = newest :: rev (anchorsOf board sz pre).
Proof.
  intros Hwf H29 Hold Hfound Hnew.
  destruct (run_without_capture pre (CalibProcessor_new data board sz))
    as (p1 & Hrun1 & (Hn1 & Hd1) & Hl1);
    [exact Hwf | cbn; lia |].
  cbn in Hn1, Hd1, Hl1.
  destruct (runFrames_counts _ _ _ Hrun1) as (Hb1 & Hs1 & _).
  cbn in Hb1, Hs1.
  assert (Hh1 : mTemplateLocations p1 = rev (anchorsOf board sz pre)).
  { rewrite (run_window pre (CalibProcessor_new data board sz) p1
               (Nat.le_0_l 30) Hrun1 Hn1).
    cbn [mTemplateLocations mBoardType mBoardSize CalibProcessor_new].
    rewrite app_nil_r. apply firstn_all2.
    rewrite length_rev, anchorsOf_length by exact Hwf. lia. }
  assert (Hwfl : wellFormedFrame (mBoardType p1) (mBoardSize p1) last = true).
  { rewrite Hb1, Hs1. unfold wellFormedFrame. rewrite Hfound, Hnew. reflexivity. }
  destruct (processFrame_cases last p1 Hwfl) as (q & Hq & Hcases).
  rewrite Hb1, Hs1, Hfound in Hq, Hcases.
  destruct (detect_inv _ _ _ _ Hq) as (_ & Hdq & _ & _ & Hnq & _ & Hhq & _).
  rewrite Hb1, Hs1, Hnew, Hh1 in Hhq.
  assert (Hev : evict q = q).
  { apply evict_small. rewrite Hhq. cbn [length].
    rewrite length_rev, anchorsOf_length by exact Hwf. lia. }
  rewrite Hev in Hcases.
  assert (Hw : withinOffset (mTemplateLocations q) =
               Some (dlt (norm (Point2f_sub newest oldest)) maxTemplateOffset)).
  { apply withinOffset_ends; rewrite Hhq; [reflexivity |].
    rewrite nth_error_cons_succ, nth_error_rev, anchorsOf_length, H29 by exact Hwf.
    cbn. destruct (anchorsOf board sz pre); [discriminate | exact Hold]. }
  rewrite runFrames_app, Hrun1. cbn [runFrames].
  destruct Hcases as [(Hs & Hp) | (Hs & Hp)]; rewrite steadyHold_iff in Hs;
    rewrite Hp; eexists; (split; [reflexivity |]).
  - destruct Hs as (_ & Hs). rewrite Hw in Hs. injection Hs as ->.
    destruct (capture_fields q) as (-> & _ & _ & -> & _ & ->).
    rewrite saveFrameData_sampleCount, Hdq, Hd1, Hnq, Hn1.
    split; [reflexivity |]. split; reflexivity.
  - destruct (dlt (norm (Point2f_sub newest oldest)) maxTemplateOffset) eqn:E.
    + exfalso. apply Hs. split; [| exact Hw].
      rewrite Hhq. cbn [length]. rewrite length_rev, anchorsOf_length, H29 by exact Hwf.
      reflexivity.
    + split; [rewrite Hnq; exact Hn1 |]. split; [rewrite Hdq; exact Hd1 | exact Hhq].
Qed.

Lemma thirtieth_detection_decides_witness :
  Forall (fun fr => wellFormedFrame Chessboard board6x9 fr = true)
         (repeat (seenAt 500 500) 28 ++ [missed; seenAt 510 500]) /\
  exists p',
    runFrames ((repeat (seenAt 500 500) 28 ++ [missed; seenAt 510 500])
               ++ [seenAt 520 500])
              (CalibProcessor_new emptyData Chessboard board6x9) = Some p' /\
    if dlt (norm (Point2f_sub (pixel 520 500) (pixel 500 500))) maxTemplateOffset
    then mCapuredFrames p' = 1 /\
         sampleCount (mCalibdata p') = S (sampleCount emptyData) /\
         mTemplateLocations p' = repeat Point2f_default 30
    else mCapuredFrames p' = 0 /\ mCalibdata p' = emptyData /\
         mTemplateLocations p' =
           pixel 520 500
           :: rev (anchorsOf Chessboard board6x9
                     (repeat (seenAt 500 500) 28 ++ [missed; seenAt 510 500])).
Proof.
  assert (Hwf : Forall (fun fr => wellFormedFrame Chessboard board6x9 fr = true)
                  (repeat (seenAt 500 500) 28 ++ [missed; seenAt 510 500]))
    by (repeat constructor).
  split; [exact Hwf |].
  apply (thirtieth_detection_decides emptyData Chessboard board6x9
           (repeat (seenAt 500 500) 28 ++ [missed; seenAt 510 500])
           (seenAt 520 500) (pixel 500 500) (pixel 520 500) Hwf);
    reflexivity.
Defined.

(* ------------------------------------------------------------------ *)
(** ** What a capture stores *)

(** The buffers a successful detection leaves for [saveFrameData]. *)
Lemma detect_buffers fr p q :
  detect fr p = Some (true, q) ->
  (mBoardType p <> chAruco ->
   mCurrentImagePoints q = detectedPoints (mBoardType p) (mBoardSize p) fr) /\
  (mBoardType p = chAruco ->
   mCurrentCharucoCorners q = fst (interpolateCornersCharuco fr) /\
   mCurrentCharucoIds q = snd (interpolateCornersCharuco fr)).
Proof.
  destruct p as [d board sz h cur cc ci n m]; destruct board;
    unfold detect, detectAndParseChessboard, detectAndParseChAruco,
      detectAndParseACircles, detectAndParseDualACircles, insertAnchor,
      detectedPoints; cbn;
    repeat (break_detector; cbn);
    repeat match goal with
           | |- context [match ?l with nil => _ | cons _ _ => _ end] => destruct l; cbn
           end;
    intros E; try discriminate; injection E as <-; cbn;
    split; intros H; try congruence; try (split; reflexivity); reflexivity.
Qed.

(** X3. The sample a capture appends comes from the frame that triggered
    it and from nothing older: for a geometric board the image points are
    the points detected on this frame (refined corners for the chessboard,
    white then black centres for the double grid) paired with the generated
    object points; for the marker board they are this frame's interpolated
    corners and ids. *)
Theorem captured_sample_is_current_detection fr p p' :
  processFrame fr p = Some p' ->
  mCapuredFrames p' = mCapuredFrames p + 1 ->
  (mBoardType p <> chAruco ->
   mCalibdata p' =
     push_geometric (detectedPoints (mBoardType p) (mBoardSize p) fr)
       (generatedObjectPoints (mBoardType p) (mBoardSize p)) (mCalibdata p)) /\
  (mBoardType p = chAruco ->
   mCalibdata p' =
     push_charuco (fst (interpolateCornersCharuco fr))
       (snd (interpolateCornersCharuco fr)) (mCalibdata p)).
Proof.
  intros Hp Hcount.
  destruct (processFrame_step _ _ _ Hp) as (q & Hq & Hcase).
  destruct (detect_inv _ _ _ _ Hq) as (_ & Hd & Hb & Hs & Hn & _).
  destruct (evict_fields q) as (Ed & Eb & Es & En & _ & Ei & Ec & Eid).
  destruct Hcase as [-> | ((_ & Hfound & _) & ->)]; [rewrite En in Hcount; lia |].
  rewrite Hfound in Hq. destruct (detect_buffers _ _ _ Hq) as (Hgeo & Hcha).
  destruct (capture_dataset (evict q)) as [(Hg & ->) | (Hg & ->)];
    rewrite ?Eb, ?Es, ?Ed, ?Ei, ?Ec, ?Eid, ?Hb, ?Hs, ?Hd in *.
  - split; [| intros; contradiction]. intros _. rewrite Hgeo by exact Hg. reflexivity.
  - split; [intros; contradiction |]. intros _.
    destruct (Hcha Hg) as (-> & ->). reflexivity.
Qed.

Lemma captured_sample_is_current_detection_witness :
  processFrame (seenAt 10 10) (chessboardHolding (repeat (pixel 10 10) 29))
  = Some (mkCalibProcessor
            (push_geometric [pixel 10 10; pixel 60 10]
               (generatedObjectPoints Chessboard board6x9) emptyData)
            Chessboard board6x9 (repeat Point2f_default 30)
            [pixel 10 10; pixel 60 10] [] [] 1 1) /\
  push_geometric [pixel 10 10; pixel 60 10]
    (generatedObjectPoints Chessboard board6x9) emptyData
  = push_geometric (detectedPoints Chessboard board6x9 (seenAt 10 10))
      (generatedObjectPoints Chessboard board6x9) emptyData.
Proof.
  assert (Hp : processFrame (seenAt 10 10) (chessboardHolding (repeat (pixel 10 10) 29))
  = Some (mkCalibProcessor
            (push_geometric [pixel 10 10; pixel 60 10]
               (generatedObjectPoints Chessboard board6x9) emptyData)
            Chessboard board6x9 (repeat Point2f_default 30)
            [pixel 10 10; pixel 60 10] [] [] 1 1))
    by (vm_compute; reflexivity).
  split; [exact Hp |].
  apply (proj1 (captured_sample_is_current_detection _ _ _ Hp eq_refl)).
  discriminate.
Defined.

(* ------------------------------------------------------------------ *)
(** ** After a capture, after a reset *)

Lemma anchorsOf_found board sz fr rest a :
  templateFound board sz fr = true -> anchorOf board sz fr = Some a ->
  anchorsOf board sz (fr :: rest) = a :: anchorsOf board sz rest.
Proof. intros Hf Ha. cbn [anchorsOf]. rewrite Hf, Ha. reflexivity. Qed.

Lemma anchorsOf_missed board sz fr rest :
  templateFound board sz fr = false ->
  anchorsOf board sz (fr :: rest) = anchorsOf board sz rest.
Proof. intros Hf. cbn [anchorsOf]. rewrite Hf. reflexivity. Qed.

(** A full history whose entries from position [k] on are still the
    default points of [resize], fed anchors that are not within the
    threshold of the default point: no capture while fewer than [30 - k]
    detections arrive. *)
Lemma run_over_default_tail frames : forall p k,
  length (mTemplateLocations p) = 30%nat ->
  (forall i, (k <= i < 30)%nat ->
     nth_error (mTemplateLocations p) i = Some Point2f_default) ->
  Forall (fun fr => wellFormedFrame (mBoardType p) (mBoardSize p) fr = true) frames ->
  Forall (fun a => dlt (norm (Point2f_sub a Point2f_default)) maxTemplateOffset = false)
         (anchorsOf (mBoardType p) (mBoardSize p) frames) ->
  (k + detections (mBoardType p) (mBoardSize p) frames < 30)%nat ->
  exists p', runFrames frames p = Some p' /\ notCaptured p p'.
Proof.
  induction frames as [| fr rest IH]; intros p k Hlen Htail Hwf Hfar Hlt.
  - exists p. split; [reflexivity | apply notCaptured_refl].
  - inversion Hwf as [| ? ? Hfr Hrest]; subst.
    rewrite detections_cons in Hlt.
    destruct (processFrame_cases fr p Hfr) as (q & Hq & Hcases).
    destruct (detect_inv _ _ _ _ Hq) as (_ & _ & Hb & Hs & _ & _ & Hh & Ha).
    pose proof (notCaptured_evict _ _ _ _ Hq) as Hnc.
    destruct (evict_fields q) as (_ & Eb & Es & _).
    destruct (templateFound (mBoardType p) (mBoardSize p) fr) eqn:Hfound.
    + destruct (anchorOf (mBoardType p) (mBoardSize p) fr) as [a|] eqn:Hanchor;
        [| exfalso; apply Ha; reflexivity].
      rewrite (anchorsOf_found _ _ _ rest _ Hfound Hanchor) in Hfar.
      inversion Hfar as [| ? ? Hfar_a Hfar_rest]; subst.
      assert (Hev : mTemplateLocations (evict q) = firstn 30 (a :: mTemplateLocations p)).
      { rewrite evict_history by (rewrite Hh; cbn [length]; lia). rewrite Hh. reflexivity. }
      assert (Hnth : forall i, (1 <= i < 30)%nat ->
                nth_error (mTemplateLocations (evict q)) i
                = nth_error (mTemplateLocations p) (i - 1)).
      { intros i Hi. rewrite Hev, nth_error_firstn.
        destruct (Nat.ltb_spec i 30); [| lia].
        destruct i as [| i]; [lia |]. rewrite nth_error_cons_succ. f_equal. lia. }
      assert (Hnot : ~ steadyHold true (mTemplateLocations (evict q))).
      { rewrite steadyHold_iff. intros (_ & Hw).
        rewrite (withinOffset_ends (mTemplateLocations (evict q)) a Point2f_default) in Hw.
        - rewrite Hfar_a in Hw. discriminate.
        - rewrite Hev. reflexivity.
        - rewrite Hnth by lia. apply Htail. lia. }
      destruct Hcases as [(Hst & _) | (_ & Hp)]; [contradiction |].
      destruct (IH (evict q) (S k)) as (p' & Hrun & Hnc').
      * rewrite Hev, length_firstn. cbn [length]. lia.
      * intros i Hi. rewrite Hnth by lia. apply Htail. lia.
      * rewrite Eb, Es, Hb, Hs. exact Hrest.
      * rewrite Eb, Es, Hb, Hs. exact Hfar_rest.
      * rewrite Eb, Es, Hb, Hs. lia.
      * exists p'. cbn [runFrames]. rewrite Hp. split; [exact Hrun |].
        eapply notCaptured_trans; eassumption.
    + rewrite (anchorsOf_missed _ _ _ rest Hfound) in Hfar.
      assert (Hev : evict q = q) by (apply evict_small; rewrite Hh; lia).
      destruct Hcases as [((_ & Hc & _) & _) | (_ & Hp)]; [discriminate |].
      rewrite Hev in *.
      destruct (IH q k) as (p' & Hrun & Hnc').
      * rewrite Hh. exact Hlen.
      * rewrite Hh. exact Htail.
      * rewrite Hb, Hs. exact Hrest.
      * rewrite Hb, Hs. exact Hfar.
      * rewrite Hb, Hs. lia.
      * exists p'. cbn [runFrames]. rewrite Hp. split; [exact Hrun |].
        eapply notCaptured_trans; eassumption.
Qed.

(** X7. The delay between captures, as the code has it.  Right after a
    capture the history is thirty default points; from there, as long as
    every detected anchor is not within the threshold of the default point
    (0,0), fewer than 30 further detections never capture. *)
Theorem no_recapture_away_from_origin frames p :
  mTemplateLocations p = repeat Point2f_default 30 ->
  Forall (fun fr => wellFormedFrame (mBoardType p) (mBoardSize p) fr = true) frames ->
  Forall (fun a => dlt (norm (Point2f_sub a Point2f_default)) maxTemplateOffset = false)
         (anchorsOf (mBoardType p) (mBoardSize p) frames) ->
  (detections (mBoardType p) (mBoardSize p) frames < 30)%nat ->
  exists p',
    runFrames frames p = Some p' /\
    mCapuredFrames p' = mCapuredFrames p /\ mCalibdata p' = mCalibdata p.
Proof.
  intros Hh Hwf Hfar Hlt.
  apply (run_over_default_tail frames p 0); try assumption.
  - rewrite Hh. apply repeat_length.
  - intros i Hi. rewrite Hh. apply nth_error_repeat. lia.
Qed.

Lemma no_recapture_away_from_origin_witness :
  Forall (fun fr => wellFormedFrame Chessboard board6x9 fr = true)
         [seenAt 500 500; missed; seenAt 500 500] /\
  exists p',
    runFrames [seenAt 500 500; missed; seenAt 500 500]
      (chessboardHolding (repeat Point2f_default 30)) = Some p' /\
    mCapuredFrames p' = 0 /\ mCalibdata p' = emptyData.
Proof.
  assert (Hwf : Forall (fun fr => wellFormedFrame Chessboard board6x9 fr = true)
                  [seenAt 500 500; missed; seenAt 500 500])
    by (repeat constructor).
  split; [exact Hwf |].
  apply (no_recapture_away_from_origin [seenAt 500 500; missed; seenAt 500 500]
           (chessboardHolding (repeat Point2f_default 30)) eq_refl Hwf).
  - repeat constructor.
  - vm_compute. lia.
Defined.

(** X8. [resetState] restarts the gate: whatever the history and the
    counter were, after a reset fewer than 30 detections never capture,
    the counter stays 0 and the data set is the one from before the
    reset. *)
Theorem reset_restarts_gate frames p :
  Forall (fun fr => wellFormedFrame (mBoardType p) (mBoardSize p) fr = true) frames ->
  (detections (mBoardType p) (mBoardSize p) frames < 30)%nat ->
  exists p',
    runFrames frames (resetState p) = Some p' /\
    mCapuredFrames p' = 0 /\ mCalibdata p' = mCalibdata p /\
    length (mTemplateLocations p') = detections (mBoardType p) (mBoardSize p) frames.
Proof.
  intros Hwf Hlt.
  destruct (run_without_capture frames (resetState p)) as (p' & Hrun & (Hn & Hd) & Hl).
  - exact Hwf.
  - exact Hlt.
  - exists p'. split; [exact Hrun |]. split; [exact Hn |]. split; [exact Hd | exact Hl].
Qed.

Lemma reset_restarts_gate_witness :
  Forall (fun fr => wellFormedFrame Chessboard board6x9 fr = true)
         [seenAt 10 10; seenAt 10 10] /\
  exists p',
    runFrames [seenAt 10 10; seenAt 10 10]
      (resetState (mkCalibProcessor emptyData Chessboard board6x9
                     (repeat (pixel 10 10) 29) [] [] [] 5 1)) = Some p' /\
    mCapuredFrames p' = 0 /\ mCalibdata p' = emptyData /\
    length (mTemplateLocations p') =
      detections Chessboard board6x9 [seenAt 10 10; seenAt 10 10].
Proof.
  assert (Hwf : Forall (fun fr => wellFormedFrame Chessboard board6x9 fr = true)
                  [seenAt 10 10; seenAt 10 10])
    by (repeat constructor).
  split; [exact Hwf |].
  apply (reset_restarts_gate [seenAt 10 10; seenAt 10 10]
           (mkCalibProcessor emptyData Chessboard board6x9
              (repeat (pixel 10 10) 29) [] [] [] 5 1) Hwf).
  vm_compute. lia.
Defined.

(** A call can only capture on a frame with a detection, and then the
    evicted history is full. *)
Lemma processFrame_capture_needs fr p p' :
  processFrame fr p = Some p' ->
  (mCapuredFrames p' = mCapuredFrames p /\
   (length (mTemplateLocations p') <=
      length (mTemplateLocations p)
      + (if templateFound (mBoardType p) (mBoardSize p) fr then 1 else 0))%nat) \/
  (mCapuredFrames p' = mCapuredFrames p + 1 /\
   templateFound (mBoardType p) (mBoardSize p) fr = true /\
   (30 <= length (mTemplateLocations p) + 1)%nat).
Proof.
  intros Hp. destruct (processFrame_step _ _ _ Hp) as (q & Hq & Hcase).
  destruct (detect_inv _ _ _ _ Hq) as (_ & _ & _ & _ & Hn & _ & Hh & _).
  destruct (evict_fields q) as (_ & _ & _ & En & _).
  pose proof (length_evict_le q) as Hle.
  assert (Hq_len : (length (mTemplateLocations q) <=
                    length (mTemplateLocations p)
                    + (if templateFound (mBoardType p) (mBoardSize p) fr then 1 else 0))%nat).
  { rewrite Hh. destruct (templateFound _ _ fr); [| lia].
    destruct (anchorOf _ _ fr); cbn [length]; lia. }
  destruct Hcase as [-> | ((H30 & Hfound & _) & ->)].
  - left. split; [congruence | lia].
  - right. destruct (capture_fields (evict q)) as (_ & _ & _ & -> & _).
    split; [congruence |]. split; [exact Hfound |].
    rewrite Hfound in Hq_len. lia.
Qed.

Lemma captures_bound frames : forall p p' (d : nat),
  (mCapuredFrames p = 0 /\ (length (mTemplateLocations p) <= d)%nat) \/
  (1 <= mCapuredFrames p /\ mCapuredFrames p + 29 <= Z.of_nat d) ->
  runFrames frames p = Some p' ->
  (mCapuredFrames p' = 0 /\
   (length (mTemplateLocations p')
      <= d + detections (mBoardType p) (mBoardSize p) frames)%nat) \/
  (1 <= mCapuredFrames p' /\
   mCapuredFrames p' + 29
     <= Z.of_nat (d + detections (mBoardType p) (mBoardSize p) frames)).
Proof.
  induction frames as [| fr rest IH]; intros p p' d Hinv Hrun; cbn [runFrames] in Hrun.
  - injection Hrun as <-. unfold detections. cbn [filter length].
    rewrite Nat.add_0_r. exact Hinv.
  - destruct (processFrame fr p) as [p1|] eqn:Hp; [| discriminate].
    destruct (processFrame_inv _ _ _ Hp) as (Hb & Hs & _).
    rewrite detections_cons.
    set (one := if templateFound (mBoardType p) (mBoardSize p) fr then 1%nat else 0%nat).
    specialize (IH p1 p' (d + one)%nat).
    rewrite Hb, Hs in IH.
    replace (d + (one + detections (mBoardType p) (mBoardSize p) rest))%nat
      with (d + one + detections (mBoardType p) (mBoardSize p) rest)%nat by lia.
    apply IH; [| exact Hrun].
    destruct (processFrame_capture_needs _ _ _ Hp) as [(Hn & Hl) | (Hn & Hf & Hl)];
      fold one in Hl || (subst one; rewrite Hf).
    + destruct Hinv as [(H0 & Hd) | (H1 & Hd)]; [left | right]; split; lia.
    + right. destruct Hinv as [(H0 & Hd) | (H1 & Hd)]; split; lia.
Qed.

(** X9. Captures are paid for in detections: along any run from a fresh
    processor, [k >= 1] captures need at least [k + 29] frames with a
    successful detection. *)
Theorem captures_need_detections data board sz frames p' :
  runFrames frames (CalibProcessor_new data board sz) = Some p' ->
  mCapuredFrames p' = 0 \/
  1 <= mCapuredFrames p' /\
  mCapuredFrames p' + 29 <= Z.of_nat (detections board sz frames).
Proof.
  intros Hrun.
  destruct (captures_bound frames (CalibProcessor_new data board sz) p' 0) as [(H0 & _) | H];
    [left; split; [reflexivity | cbn; lia] | exact Hrun | left; exact H0 | right; exact H].
Qed.

Lemma captures_need_detections_witness :
  runFrames [seenAt 10 10; missed] (CalibProcessor_new emptyData Chessboard board6x9)
  = Some (mkCalibProcessor emptyData Chessboard board6x9 [pixel 10 10] [] [] [] 0 1) /\
  (0 = 0 \/
   1 <= 0 /\ 0 + 29 <= Z.of_nat (detections Chessboard board6x9 [seenAt 10 10; missed])).
Proof.
  assert (Hrun : runFrames [seenAt 10 10; missed]
                   (CalibProcessor_new emptyData Chessboard board6x9)
                 = Some (mkCalibProcessor emptyData Chessboard board6x9
                           [pixel 10 10] [] [] [] 0 1))
    by (vm_compute; reflexivity).
  split; [exact Hrun |].
  exact (captures_need_detections _ _ _ _ _ Hrun).
Defined.

(* ------------------------------------------------------------------ *)
(** ** The generated object points *)

Lemma Forall_gridLoop (A : Type) (P : A -> Prop) sz (f : Z -> Z -> A) :
  (forall j i, P (f j i)) -> Forall P (gridLoop sz f).
Proof.
  intros HP. apply Forall_forall. intros x Hx. unfold gridLoop in Hx.
  apply in_flat_map in Hx as (i & _ & Hx).
  apply in_map_iff in Hx as (j & <- & _). apply HP.
Qed.

(** X10. The calibration target is planar: every object point generated
    for any board type and any board size has third coordinate +0. *)
Theorem object_points_planar board sz :
  Forall (fun pt => p3z pt = fzero) (generatedObjectPoints board sz).
Proof.
  destruct board; cbn [generatedObjectPoints].
  - apply Forall_gridLoop. reflexivity.
  - constructor.
  - apply Forall_gridLoop. reflexivity.
  - apply Forall_app. split; apply Forall_gridLoop; reflexivity.
Qed.

Lemma gridLoop_empty (A : Type) sz (f : Z -> Z -> A) :
  width sz <= 0 \/ height sz <= 0 -> gridLoop sz f = [].
Proof.
  intros H. apply length_zero_iff_nil. rewrite length_gridLoop. nia.
Qed.

(** X11. A board with a zero or negative dimension generates no object
    points at all (the loops do not run), for every board type; a capture
    on such a board pairs the detected image points with an empty
    object-point list. *)
Theorem object_points_empty_board board sz :
  width sz <= 0 \/ height sz <= 0 ->
  generatedObjectPoints board sz = [] /\
  forall p, mBoardType p = board -> mBoardSize p = sz -> board <> chAruco ->
    objectPoints (mCalibdata (saveFrameData p)) = objectPoints (mCalibdata p) ++ [[]] /\
    imagePoints (mCalibdata (saveFrameData p))
      = imagePoints (mCalibdata p) ++ [mCurrentImagePoints p].
Proof.
  intros H.
  assert (E : generatedObjectPoints board sz = []).
  { destruct board; cbn [generatedObjectPoints]; rewrite ?gridLoop_empty by exact H;
      reflexivity. }
  split; [exact E |]. intros p Hb Hs Hg. subst board sz.
  rewrite saveFrameData_geometric by exact Hg. rewrite E. split; reflexivity.
Qed.

Lemma object_points_empty_board_witness :
  (width (mkSize 0 9) <= 0 \/ height (mkSize 0 9) <= 0) /\
  generatedObjectPoints DoubleAcirclesGrid (mkSize 0 9) = [].
Proof.
  assert (H : width (mkSize 0 9) <= 0 \/ height (mkSize 0 9) <= 0)
    by (left; cbn; lia).
  split; [exact H |].
  exact (proj1 (object_points_empty_board DoubleAcirclesGrid (mkSize 0 9) H)).
Defined.

(** X14. On the double circle grid, provided the detector leaves the
    output array empty when it reports failure, a frame on which either
    sub-grid is missing ends the detection step with an empty point buffer
    and an unchanged history. *)
Theorem dual_failure_leaves_no_points fr p found q :
  mBoardType p = DoubleAcirclesGrid ->
  (fst (findCirclesGridWhite fr (mBoardSize p)) = false ->
   snd (findCirclesGridWhite fr (mBoardSize p)) = []) ->
  detect fr p = Some (found, q) ->
  found = false ->
  mCurrentImagePoints q = [] /\ mTemplateLocations q = mTemplateLocations p.
Proof.
  intros Hb Hclean Hq Hf. split.
  - unfold detect in Hq. cbn [mBoardType set_mCurrentImagePoints] in Hq.
    rewrite Hb in Hq.
    apply (dual_failure_clean fr (set_mCurrentImagePoints [] p) found q Hclean Hq Hf).
  - destruct (detect_inv _ _ _ _ Hq) as (_ & _ & _ & _ & _ & _ & Hh & _).
    rewrite Hf in Hh. exact Hh.
Qed.

Lemma dual_failure_leaves_no_points_witness :
  (fst (findCirclesGridWhite seenAtWhiteOnly board6x9) = false ->
   snd (findCirclesGridWhite seenAtWhiteOnly board6x9) = []) /\
  detect seenAtWhiteOnly (CalibProcessor_new emptyData DoubleAcirclesGrid board6x9)
    = Some (false, CalibProcessor_new emptyData DoubleAcirclesGrid board6x9) /\
  mCurrentImagePoints (CalibProcessor_new emptyData DoubleAcirclesGrid board6x9) = [].
Proof.
  assert (Hclean : fst (findCirclesGridWhite seenAtWhiteOnly board6x9) = false ->
                   snd (findCirclesGridWhite seenAtWhiteOnly board6x9) = [])
    by (intros H; discriminate H).
  assert (Hrun : detect seenAtWhiteOnly
                   (CalibProcessor_new emptyData DoubleAcirclesGrid board6x9)
                 = Some (false, CalibProcessor_new emptyData DoubleAcirclesGrid board6x9))
    by reflexivity.
  split; [exact Hclean |]. split; [exact Hrun |].
  exact (proj1 (dual_failure_leaves_no_points seenAtWhiteOnly
                  (CalibProcessor_new emptyData DoubleAcirclesGrid board6x9)
                  false _ eq_refl Hclean Hrun eq_refl)).
Defined.
